(** * Ecliptix OPAQUE (iOS package): wire sizes, error taxonomy,
      declarations and the initiator's finish

    A shallow embedding of the headers shipped with the package:

    - [Packages/EcliptixOPAQUE/Sources/COpaqueClient/include/opaque.h]
      (the canonical generation of the core header),
    - [.../include/opaque_client_c.h] (the C API of the initiator),
    - [.../include/responder.h] (the responder role),
    - [ThirdParty/xcframeworks/.../ios-arm64-simulator/Headers/opaque/opaque.h]
      (the legacy generation of the core header),
    - [ThirdParty/xcframeworks/.../ios-arm64/Headers/opaque/client.h] and
      [server.h] (the legacy role headers),
    - [ThirdParty/opaque_client.h] (the legacy C API).

    The package ships declarations only.  Constants, enumerations, record
    types, special member functions, prototypes and documented sizes are
    transcribed from the headers.  The bodies of the functions are not
    part of the package; the envelope, the oblivious PRF and the
    initiator's side of the authentication are modelled from the
    specification, each such definition saying so. *)

From Stdlib Require Import NArith ZArith Bool Lia String.
From Stdlib.Strings Require Import Byte.
From Stdlib Require Import List.
Import ListNotations.

(* ------------------------------------------------------------------ *)
(** * [size_t] arithmetic *)

(** The constants of [opaque.h] are [size_t] values and the
    [static_assert]s evaluate their sums in [size_t] arithmetic, which
    wraps at [2^64] on the package's targets (arm64). *)
Module SizeT.
Definition modulus : N := 2 ^ 64.
Definition add (a b : N) : N := ((a + b) mod modulus)%N.
End SizeT.

(* ------------------------------------------------------------------ *)
(** * The constants of the core header *)

(** One value of [opaque_h] is the set of [constexpr size_t] constants of
    one generation of [opaque.h], that is, of one build.  The legacy
    generation has no [MASTER_KEY_LENGTH]. *)
Record opaque_h : Type := {
  OPRF_SEED_LENGTH : N;
  PRIVATE_KEY_LENGTH : N;
  PUBLIC_KEY_LENGTH : N;
  MASTER_KEY_LENGTH : option N;
  NONCE_LENGTH : N;
  MAC_LENGTH : N;
  HASH_LENGTH : N;
  ENVELOPE_LENGTH : N;
  REGISTRATION_REQUEST_LENGTH : N;
  REGISTRATION_RESPONSE_LENGTH : N;
  CREDENTIAL_REQUEST_LENGTH : N;
  CREDENTIAL_RESPONSE_LENGTH : N;
  KE1_LENGTH : N;
  KE2_LENGTH : N;
  KE3_LENGTH : N
}.

(** [Packages/.../include/opaque.h], lines 9-23. *)
Definition canonical : opaque_h := {|
  OPRF_SEED_LENGTH := 32;
  PRIVATE_KEY_LENGTH := 32;
  PUBLIC_KEY_LENGTH := 32;
  MASTER_KEY_LENGTH := Some 32%N;
  NONCE_LENGTH := 32;
  MAC_LENGTH := 64;
  HASH_LENGTH := 64;
  ENVELOPE_LENGTH := 176;
  REGISTRATION_REQUEST_LENGTH := 32;
  REGISTRATION_RESPONSE_LENGTH := 96;
  CREDENTIAL_REQUEST_LENGTH := 96;
  CREDENTIAL_RESPONSE_LENGTH := 208;
  KE1_LENGTH := 96;
  KE2_LENGTH := 336;
  KE3_LENGTH := 64
|}.

(** [ios-arm64-simulator/Headers/opaque/opaque.h], lines 7-20. *)
Definition legacy : opaque_h := {|
  OPRF_SEED_LENGTH := 32;
  PRIVATE_KEY_LENGTH := 32;
  PUBLIC_KEY_LENGTH := 32;
  MASTER_KEY_LENGTH := None;
  NONCE_LENGTH := 32;
  MAC_LENGTH := 64;
  HASH_LENGTH := 64;
  ENVELOPE_LENGTH := 144;
  REGISTRATION_REQUEST_LENGTH := 32;
  REGISTRATION_RESPONSE_LENGTH := 96;
  CREDENTIAL_REQUEST_LENGTH := 96;
  CREDENTIAL_RESPONSE_LENGTH := 176;
  KE1_LENGTH := 96;
  KE2_LENGTH := 304;
  KE3_LENGTH := 64
|}.

(** The two generations of the core header present in the package. *)
Definition header_generations : list opaque_h := [canonical; legacy].

(** The macros of [opaque_client_c.h], lines 12-25. *)
Module CApi.
Definition OPAQUE_PRIVATE_KEY_LENGTH : N := 32.
Definition OPAQUE_PUBLIC_KEY_LENGTH : N := 32.
Definition OPAQUE_MASTER_KEY_LENGTH : N := 32.
Definition OPAQUE_NONCE_LENGTH : N := 32.
Definition OPAQUE_MAC_LENGTH : N := 64.
Definition OPAQUE_HASH_LENGTH : N := 64.
Definition OPAQUE_ENVELOPE_LENGTH : N := 176.
Definition OPAQUE_REGISTRATION_REQUEST_LENGTH : N := 32.
Definition OPAQUE_REGISTRATION_RESPONSE_LENGTH : N := 96.
Definition OPAQUE_CREDENTIAL_REQUEST_LENGTH : N := 96.
Definition OPAQUE_CREDENTIAL_RESPONSE_LENGTH : N := 208.
Definition OPAQUE_KE1_LENGTH : N := 96.
Definition OPAQUE_KE2_LENGTH : N := 336.
Definition OPAQUE_KE3_LENGTH : N := 64.

(** The same constants seen as a build; the C header has no OPRF seed
    length, the canonical core header's is used. *)
Definition as_header : opaque_h := {|
  OPRF_SEED_LENGTH := OPRF_SEED_LENGTH canonical;
  PRIVATE_KEY_LENGTH := OPAQUE_PRIVATE_KEY_LENGTH;
  PUBLIC_KEY_LENGTH := OPAQUE_PUBLIC_KEY_LENGTH;
  MASTER_KEY_LENGTH := Some OPAQUE_MASTER_KEY_LENGTH;
  NONCE_LENGTH := OPAQUE_NONCE_LENGTH;
  MAC_LENGTH := OPAQUE_MAC_LENGTH;
  HASH_LENGTH := OPAQUE_HASH_LENGTH;
  ENVELOPE_LENGTH := OPAQUE_ENVELOPE_LENGTH;
  REGISTRATION_REQUEST_LENGTH := OPAQUE_REGISTRATION_REQUEST_LENGTH;
  REGISTRATION_RESPONSE_LENGTH := OPAQUE_REGISTRATION_RESPONSE_LENGTH;
  CREDENTIAL_REQUEST_LENGTH := OPAQUE_CREDENTIAL_REQUEST_LENGTH;
  CREDENTIAL_RESPONSE_LENGTH := OPAQUE_CREDENTIAL_RESPONSE_LENGTH;
  KE1_LENGTH := OPAQUE_KE1_LENGTH;
  KE2_LENGTH := OPAQUE_KE2_LENGTH;
  KE3_LENGTH := OPAQUE_KE3_LENGTH
|}.
End CApi.

(** [crypto_secretbox_NONCEBYTES] of the secret-box cipher, the bound the
    [static_assert] on [NONCE_LENGTH] names (opaque.h, line 27). *)
Definition crypto_secretbox_NONCEBYTES : N := 24.

(** The six [static_assert]s of the canonical header (lines 25-32), one
    boolean each, in the order of the header. *)
Definition static_assert_key_lengths (h : opaque_h) : bool :=
  (PRIVATE_KEY_LENGTH h =? PUBLIC_KEY_LENGTH h)%N.
Definition static_assert_private_key (h : opaque_h) : bool :=
  (PRIVATE_KEY_LENGTH h =? 32)%N.
Definition static_assert_nonce (h : opaque_h) : bool :=
  (crypto_secretbox_NONCEBYTES <=? NONCE_LENGTH h)%N.
Definition static_assert_mac (h : opaque_h) : bool :=
  (MAC_LENGTH h =? 64)%N.
Definition static_assert_credential_response (h : opaque_h) : bool :=
  (CREDENTIAL_RESPONSE_LENGTH h
   =? SizeT.add (PUBLIC_KEY_LENGTH h) (ENVELOPE_LENGTH h))%N.
Definition static_assert_ke2 (h : opaque_h) : bool :=
  (KE2_LENGTH h
   =? SizeT.add (SizeT.add (SizeT.add (NONCE_LENGTH h) (PUBLIC_KEY_LENGTH h))
                           (CREDENTIAL_RESPONSE_LENGTH h))
                (MAC_LENGTH h))%N.

Definition static_asserts (h : opaque_h) : bool :=
  static_assert_key_lengths h && static_assert_private_key h
  && static_assert_nonce h && static_assert_mac h
  && static_assert_credential_response h && static_assert_ke2 h.

(** The sizes that depend on the envelope length, for an envelope of [env]
    bytes: the credential response and KE2 as the [static_assert]s compose
    them. *)
Definition credential_response_for (h : opaque_h) (env : N) : N :=
  SizeT.add (PUBLIC_KEY_LENGTH h) env.
Definition ke2_for (h : opaque_h) (env : N) : N :=
  SizeT.add (SizeT.add (SizeT.add (NONCE_LENGTH h) (PUBLIC_KEY_LENGTH h))
                       (credential_response_for h env))
            (MAC_LENGTH h).

(** A build is consistent with the layout whose envelope has [env] bytes
    when its envelope length is [env] and its two derived sizes are the
    ones composed from [env]. *)
Definition consistent_with (h : opaque_h) (env : N) : bool :=
  (ENVELOPE_LENGTH h =? env)%N
  && (CREDENTIAL_RESPONSE_LENGTH h =? credential_response_for h env)%N
  && (KE2_LENGTH h =? ke2_for h env)%N.

Definition legacy_envelope : N := 144.
Definition canonical_envelope : N := 176.

(* ------------------------------------------------------------------ *)
(** * The error taxonomy *)

(** [enum class Result] of the canonical [opaque.h], lines 34-42. *)
Inductive Result : Type :=
| Success
| InvalidInput
| CryptoError
| MemoryError
| ValidationError
| AuthenticationError
| InvalidPublicKey.

(** The enumerators' values, [static_cast<int>]. *)
Definition Result_code (r : Result) : Z :=
  match r with
  | Success => 0
  | InvalidInput => -1
  | CryptoError => -2
  | MemoryError => -3
  | ValidationError => -4
  | AuthenticationError => -5
  | InvalidPublicKey => -6
  end.

Definition all_results : list Result :=
  [Success; InvalidInput; CryptoError; MemoryError; ValidationError;
   AuthenticationError; InvalidPublicKey].

(** [enum class Result] of the legacy [opaque.h], lines 21-29. *)
Module LegacyResult.
Inductive Result : Type :=
| Success
| InvalidInput
| CryptoError
| MemoryError
| ValidationError
| AuthenticationError
| InvalidPublicKey.

Definition Result_code (r : Result) : Z :=
  match r with
  | Success => 0
  | InvalidInput => -1
  | CryptoError => -2
  | MemoryError => -3
  | ValidationError => -4
  | AuthenticationError => -5
  | InvalidPublicKey => -6
  end.

Definition all_results : list Result :=
  [Success; InvalidInput; CryptoError; MemoryError; ValidationError;
   AuthenticationError; InvalidPublicKey].
End LegacyResult.

(** [opaque_result_t] of [opaque_client_c.h], lines 28-36. *)
Inductive opaque_result_t : Type :=
| OPAQUE_SUCCESS
| OPAQUE_INVALID_INPUT
| OPAQUE_CRYPTO_ERROR
| OPAQUE_MEMORY_ERROR
| OPAQUE_VALIDATION_ERROR
| OPAQUE_AUTHENTICATION_ERROR
| OPAQUE_INVALID_PUBLIC_KEY.

Definition opaque_result_code (r : opaque_result_t) : Z :=
  match r with
  | OPAQUE_SUCCESS => 0
  | OPAQUE_INVALID_INPUT => -1
  | OPAQUE_CRYPTO_ERROR => -2
  | OPAQUE_MEMORY_ERROR => -3
  | OPAQUE_VALIDATION_ERROR => -4
  | OPAQUE_AUTHENTICATION_ERROR => -5
  | OPAQUE_INVALID_PUBLIC_KEY => -6
  end.

Definition all_opaque_results : list opaque_result_t :=
  [OPAQUE_SUCCESS; OPAQUE_INVALID_INPUT; OPAQUE_CRYPTO_ERROR;
   OPAQUE_MEMORY_ERROR; OPAQUE_VALIDATION_ERROR;
   OPAQUE_AUTHENTICATION_ERROR; OPAQUE_INVALID_PUBLIC_KEY].

(** The enumerators that carry the same name in the three enumerations. *)
Definition to_opaque_result_t (r : Result) : opaque_result_t :=
  match r with
  | Success => OPAQUE_SUCCESS
  | InvalidInput => OPAQUE_INVALID_INPUT
  | CryptoError => OPAQUE_CRYPTO_ERROR
  | MemoryError => OPAQUE_MEMORY_ERROR
  | ValidationError => OPAQUE_VALIDATION_ERROR
  | AuthenticationError => OPAQUE_AUTHENTICATION_ERROR
  | InvalidPublicKey => OPAQUE_INVALID_PUBLIC_KEY
  end.

Definition to_legacy_result (r : Result) : LegacyResult.Result :=
  match r with
  | Success => LegacyResult.Success
  | InvalidInput => LegacyResult.InvalidInput
  | CryptoError => LegacyResult.CryptoError
  | MemoryError => LegacyResult.MemoryError
  | ValidationError => LegacyResult.ValidationError
  | AuthenticationError => LegacyResult.AuthenticationError
  | InvalidPublicKey => LegacyResult.InvalidPublicKey
  end.

(** The fixed table of the taxonomy, codes 0 down to -6. *)
Definition taxonomy : list Z := [0; -1; -2; -3; -4; -5; -6]%Z.

(** What an operation produces: the C++ operations return a [Result] and
    fill their out-parameters on [Success]; [Ok a] is a [Success] with the
    out-parameters [a], [Err r] a return of [r] with nothing produced. *)
Inductive outcome (A : Type) : Type :=
| Ok (a : A)
| Err (r : Result).
Arguments Ok {A} a.
Arguments Err {A} r.

Definition status {A : Type} (o : outcome A) : Result :=
  match o with
  | Ok _ => Success
  | Err r => r
  end.

(** The integer status an operation hands to a C caller. *)
Definition status_code {A : Type} (o : outcome A) : Z := Result_code (status o).

(* ------------------------------------------------------------------ *)
(** * Special member functions of the classes *)

(** The declarations of copy and move operations, as the class bodies of
    the headers write them, and the copy and move status C++ derives from
    them. *)
Module Cxx.
(** How a class body treats one special member function. *)
Inductive special_member : Type :=
| declared        (* declared by the class body, not deleted *)
| deleted         (* declared [= delete] *)
| not_declared.   (* absent from the class body *)

(** The types of the data members that occur in the headers. *)
Inductive member_type : Type :=
| secure_bytes            (* std::vector<uint8_t, SecureAllocator<uint8_t>> *)
| unique_ptr_Impl         (* std::unique_ptr<Impl> *)
| uint8_pointer           (* uint8_t* *)
| size_type.              (* size_t *)

Record class_decl : Type := {
  class_name : string;
  destructor : special_member;
  copy_constructor : special_member;
  copy_assignment : special_member;
  move_constructor : special_member;
  move_assignment : special_member;
  data_members : list member_type
}.

(** [std::vector] with a copyable allocator, raw pointers and integers
    are copy-constructible; [std::unique_ptr] is not. *)
Definition member_copyable (m : member_type) : bool :=
  match m with
  | secure_bytes => true
  | unique_ptr_Impl => false
  | uint8_pointer => true
  | size_type => true
  end.

Definition is_declared (s : special_member) : bool :=
  match s with
  | not_declared => false
  | _ => true
  end.

(** [class.copy.ctor]: a copy constructor that the class does not declare
    is declared implicitly; it is defined as deleted when the class
    declares a move constructor or a move assignment operator, or when a
    data member cannot be copied, and is defaulted otherwise. *)
Definition copy_constructible (c : class_decl) : bool :=
  match copy_constructor c with
  | declared => true
  | deleted => false
  | not_declared =>
      negb (is_declared (move_constructor c) || is_declared (move_assignment c))
      && forallb member_copyable (data_members c)
  end.

(** [class.copy.assign], the same rule for copy assignment. *)
Definition copy_assignable (c : class_decl) : bool :=
  match copy_assignment c with
  | declared => true
  | deleted => false
  | not_declared =>
      negb (is_declared (move_constructor c) || is_declared (move_assignment c))
      && forallb member_copyable (data_members c)
  end.

(** A class whose copy operations are both deleted by its body. *)
Definition copy_deleted (c : class_decl) : bool :=
  match copy_constructor c, copy_assignment c with
  | deleted, deleted => true
  | _, _ => false
  end.

(** A class that can be moved by move operations of its own. *)
Definition move_declared (c : class_decl) : bool :=
  match move_constructor c, move_assignment c with
  | declared, declared => true
  | _, _ => false
  end.

(** opaque.h, lines 67-96 (and the legacy opaque.h, lines 44-61). *)
Definition SecureBuffer : class_decl := {|
  class_name := "SecureBuffer";
  destructor := declared;
  copy_constructor := deleted;
  copy_assignment := deleted;
  move_constructor := declared;
  move_assignment := declared;
  data_members := [uint8_pointer; size_type]
|}.

(** responder.h, lines 42-74. *)
Definition OpaqueResponder : class_decl := {|
  class_name := "OpaqueResponder";
  destructor := declared;
  copy_constructor := deleted;
  copy_assignment := deleted;
  move_constructor := not_declared;
  move_assignment := not_declared;
  data_members := [unique_ptr_Impl]
|}.

(** client.h, lines 36-73. *)
Definition OpaqueClient : class_decl := {|
  class_name := "OpaqueClient";
  destructor := declared;
  copy_constructor := deleted;
  copy_assignment := deleted;
  move_constructor := not_declared;
  move_assignment := not_declared;
  data_members := [unique_ptr_Impl]
|}.

(** server.h, lines 33-62. *)
Definition OpaqueServer : class_decl := {|
  class_name := "OpaqueServer";
  destructor := declared;
  copy_constructor := deleted;
  copy_assignment := deleted;
  move_constructor := not_declared;
  move_assignment := not_declared;
  data_members := [unique_ptr_Impl]
|}.

(** client.h, lines 23-35: nine [secure_bytes] members, a constructor and
    a destructor, no copy or move operation declared. *)
Definition ClientState : class_decl := {|
  class_name := "ClientState";
  destructor := declared;
  copy_constructor := not_declared;
  copy_assignment := not_declared;
  move_constructor := not_declared;
  move_assignment := not_declared;
  data_members := repeat secure_bytes 9
|}.

(** responder.h, lines 19-30: seven [secure_bytes] members. *)
Definition ResponderState : class_decl := {|
  class_name := "ResponderState";
  destructor := declared;
  copy_constructor := not_declared;
  copy_assignment := not_declared;
  move_constructor := not_declared;
  move_assignment := not_declared;
  data_members := repeat secure_bytes 7
|}.

(** server.h, lines 15-25: seven [secure_bytes] members. *)
Definition ServerState : class_decl := {|
  class_name := "ServerState";
  destructor := declared;
  copy_constructor := not_declared;
  copy_assignment := not_declared;
  move_constructor := not_declared;
  move_assignment := not_declared;
  data_members := repeat secure_bytes 7
|}.

(** The role classes and the secure buffer class. *)
Definition role_and_buffer_classes : list class_decl :=
  [OpaqueClient; OpaqueResponder; OpaqueServer; SecureBuffer].

(** The classes that hold the state of one session. *)
Definition session_state_classes : list class_decl :=
  [ClientState; ResponderState; ServerState].
End Cxx.

(* ------------------------------------------------------------------ *)
(** * Byte buffers *)

(** [secure_bytes], and every [const uint8_t*] with its length. *)
Definition bytes : Type := list byte.

(** Modelled from the spec: zeroization of a secret buffer (section 3,
    invariant 2: secret fields are zeroed before the backing storage is
    released).  The buffer is overwritten where it is: every byte becomes
    zero, the size is kept. *)
Definition zeroize (b : bytes) : bytes := repeat x00 (length b).

Fixpoint bytes_eqb (a b : bytes) : bool :=
  match a, b with
  | [], [] => true
  | x :: a', y :: b' => Byte.eqb x y && bytes_eqb a' b'
  | _, _ => false
  end.

(** The result of a constant-time comparison of two buffers; only the
    result is modelled, it is the one of an equality test. *)
Definition constant_time_equal (a b : bytes) : bool := bytes_eqb a b.

(** [n] bytes at offset [off]. *)
Definition slice (off n : nat) (b : bytes) : bytes := firstn n (skipn off b).

(** The ASCII bytes of a domain-separation label. *)
Definition label (s : string) : bytes := list_byte_of_string s.

(** The sizes of the canonical header as list lengths, and the sizes of
    the parts of the envelope (spec section 3: nonce, 96-byte ciphertext,
    48-byte tag region whose last 16 bytes are the cipher's tag). *)
Module Len.
Definition PRIVATE_KEY : nat := Eval vm_compute in N.to_nat (PRIVATE_KEY_LENGTH canonical).
Definition PUBLIC_KEY : nat := Eval vm_compute in N.to_nat (PUBLIC_KEY_LENGTH canonical).
Definition MASTER_KEY : nat := Eval vm_compute in N.to_nat CApi.OPAQUE_MASTER_KEY_LENGTH.
Definition NONCE : nat := Eval vm_compute in N.to_nat (NONCE_LENGTH canonical).
Definition MAC : nat := Eval vm_compute in N.to_nat (MAC_LENGTH canonical).
Definition HASH : nat := Eval vm_compute in N.to_nat (HASH_LENGTH canonical).
Definition ENVELOPE : nat := Eval vm_compute in N.to_nat (ENVELOPE_LENGTH canonical).
Definition REGISTRATION_REQUEST : nat :=
  Eval vm_compute in N.to_nat (REGISTRATION_REQUEST_LENGTH canonical).
Definition REGISTRATION_RESPONSE : nat :=
  Eval vm_compute in N.to_nat (REGISTRATION_RESPONSE_LENGTH canonical).
Definition CREDENTIAL_RESPONSE : nat :=
  Eval vm_compute in N.to_nat (CREDENTIAL_RESPONSE_LENGTH canonical).
Definition KE1 : nat := Eval vm_compute in N.to_nat (KE1_LENGTH canonical).
Definition KE2 : nat := Eval vm_compute in N.to_nat (KE2_LENGTH canonical).
Definition KE3 : nat := Eval vm_compute in N.to_nat (KE3_LENGTH canonical).
Definition ENVELOPE_CIPHERTEXT : nat := 96.
Definition ENVELOPE_TAG : nat := 48.
Definition INNER_TAG : nat := 16.
Definition OUTER_TAG : nat := 32.
Definition SESSION_KEY : nat := 64.
End Len.

(* ------------------------------------------------------------------ *)
(** * Results and effects *)

Definition obind {A C : Type} (o : outcome A) (k : A -> outcome C) : outcome C :=
  match o with
  | Ok a => k a
  | Err r => Err r
  end.

(** An operation that may draw from a random source of type [G]: it
    returns its outcome and the source as it leaves it.  A failure keeps
    the draws made before it. *)
Definition M (G A : Type) : Type := G -> outcome A * G.

Definition ret {G A : Type} (a : A) : M G A := fun g => (Ok a, g).

Definition lift {G A : Type} (o : outcome A) : M G A := fun g => (o, g).

Definition bind {G A C : Type} (m : M G A) (k : A -> M G C) : M G C :=
  fun g =>
    match m g with
    | (Ok a, g') => k a g'
    | (Err r, g') => (Err r, g')
    end.

Declare Scope opaque_scope.
Delimit Scope opaque_scope with opaque.
Notation "x <- m ;; k" := (bind m (fun x => k))
  (at level 61, m at next level, right associativity) : opaque_scope.
Notation "' p <- m ;; k" := (bind m (fun x => match x with p => k end))
  (at level 61, p pattern, m at next level, right associativity) : opaque_scope.
Notation "'let?' x := o 'in' k" := (obind o (fun x => k))
  (at level 10, x name, o at level 100, k at level 200) : opaque_scope.
Notation "'let?' ' p := o 'in' k" := (obind o (fun x => match x with p => k end))
  (at level 10, p pattern, o at level 100, k at level 200) : opaque_scope.
Open Scope opaque_scope.

(* ------------------------------------------------------------------ *)
(** * The cryptographic backend *)

(** The functions of namespace [crypto] (opaque.h, lines 146-171) and
    [oblivious_prf::hash_to_group], whose bodies the package does not
    contain, together with the scalar operations and the transcript hash
    the specification's formulas use.  Each returns a [Result] in the
    header; buffers and lengths become [bytes].  The random source is
    explicit so that draws can be observed. *)
Record Backend : Type := {
  RNG : Type;
  (** [crypto::random_bytes(buffer, length)] *)
  random_bytes : nat -> M RNG bytes;
  (** a random nonzero scalar (the backend regenerates or fails on zero) *)
  random_scalar : M RNG bytes;
  (** the generator G of the group *)
  base_point : bytes;
  (** [crypto::derive_key_pair(seed, private_key, public_key)] *)
  derive_key_pair : bytes -> outcome (bytes * bytes);
  (** [crypto::scalar_mult(scalar, point, result)] *)
  scalar_mult : bytes -> bytes -> outcome bytes;
  (** inverse of a scalar modulo the group order *)
  scalar_invert : bytes -> outcome bytes;
  (** reduction of 32 bytes to a nonzero scalar *)
  scalar_reduce : bytes -> outcome bytes;
  (** [oblivious_prf::hash_to_group(input, input_length, point)] *)
  hash_to_group : bytes -> outcome bytes;
  (** the transcript hash, 64 bytes *)
  hash : bytes -> bytes;
  (** [crypto::key_derivation_extract(salt, ikm, prk)] *)
  key_derivation_extract : bytes -> bytes -> outcome bytes;
  (** [crypto::key_derivation_expand(prk, info, okm, okm_length)] *)
  key_derivation_expand : bytes -> bytes -> nat -> outcome bytes;
  (** [crypto::hmac(key, data, mac)] *)
  hmac : bytes -> bytes -> outcome bytes;
  (** [crypto::encrypt_envelope(key, plaintext, nonce, ciphertext, auth_tag)] *)
  encrypt_envelope : bytes -> bytes -> bytes -> outcome (bytes * bytes);
  (** [crypto::decrypt_envelope(key, ciphertext, nonce, auth_tag, plaintext)] *)
  decrypt_envelope : bytes -> bytes -> bytes -> bytes -> outcome bytes
}.

(** What the specification assumes of the primitives (sections 4.1, 4.2):
    output sizes, [pk = sk * G], commuting scalar multiplications,
    unblinding, and decryption of what was encrypted. *)
Record Lawful (B : Backend) : Prop := {
  random_bytes_length :
    forall n g b g', random_bytes B n g = (Ok b, g') -> length b = n;
  derive_key_pair_length :
    forall seed sk pk, derive_key_pair B seed = Ok (sk, pk) ->
      length sk = Len.PRIVATE_KEY /\ length pk = Len.PUBLIC_KEY;
  derive_key_pair_public :
    forall seed sk pk, derive_key_pair B seed = Ok (sk, pk) ->
      scalar_mult B sk (base_point B) = Ok pk;
  scalar_mult_length :
    forall s p q, scalar_mult B s p = Ok q -> length q = Len.PUBLIC_KEY;
  scalar_mult_comm :
    forall a b pa pb,
      scalar_mult B a (base_point B) = Ok pa ->
      scalar_mult B b (base_point B) = Ok pb ->
      scalar_mult B a pb = scalar_mult B b pa;
  scalar_unblind :
    forall r k h blinded evaluated,
      scalar_mult B r h = Ok blinded ->
      scalar_mult B k blinded = Ok evaluated ->
      exists ri, scalar_invert B r = Ok ri
                 /\ scalar_mult B ri evaluated = scalar_mult B k h;
  hash_length : forall b, length (hash B b) = Len.HASH;
  key_derivation_expand_length :
    forall prk info n okm,
      key_derivation_expand B prk info n = Ok okm -> length okm = n;
  hmac_length :
    forall k d mac, hmac B k d = Ok mac -> length mac = Len.MAC;
  encrypt_envelope_length :
    forall k pt n ct tag, encrypt_envelope B k pt n = Ok (ct, tag) ->
      length ct = length pt /\ length tag = Len.INNER_TAG;
  decrypt_encrypt :
    forall k pt n ct tag, encrypt_envelope B k pt n = Ok (ct, tag) ->
      decrypt_envelope B k ct n tag = Ok pt;
  decrypt_envelope_length :
    forall k ct n tag pt, decrypt_envelope B k ct n tag = Ok pt ->
      length pt = length ct
}.

(* ------------------------------------------------------------------ *)
(** * The structures of the headers *)

(** [struct Envelope], opaque.h lines 98-106, and its 176 bytes on the
    wire (spec section 3: nonce, ciphertext, tag region). *)
Module Envelope.
Record t : Type := {
  nonce : bytes;
  ciphertext : bytes;
  auth_tag : bytes
}.

Definition wire (e : t) : bytes := nonce e ++ ciphertext e ++ auth_tag e.

Definition parse (b : bytes) : t := {|
  nonce := slice 0 Len.NONCE b;
  ciphertext := slice Len.NONCE Len.ENVELOPE_CIPHERTEXT b;
  auth_tag := skipn (Len.NONCE + Len.ENVELOPE_CIPHERTEXT) b
|}.
End Envelope.

(** [struct KE1], client.h lines 13-18. *)
Module KE1.
Record t : Type := {
  client_nonce : bytes;
  client_public_key : bytes;
  credential_request : bytes
}.

Definition wire (k : t) : bytes :=
  client_nonce k ++ client_public_key k ++ credential_request k.

Definition parse (b : bytes) : t := {|
  client_nonce := slice 0 Len.NONCE b;
  client_public_key := slice Len.NONCE Len.PUBLIC_KEY b;
  credential_request := skipn (Len.NONCE + Len.PUBLIC_KEY) b
|}.
End KE1.

(** [struct KE2], responder.h lines 11-17; [responder_public_key] is the
    responder's ephemeral public key of the exchange. *)
Module KE2.
Record t : Type := {
  responder_nonce : bytes;
  responder_public_key : bytes;
  credential_response : bytes;
  responder_mac : bytes
}.

Definition wire (k : t) : bytes :=
  responder_nonce k ++ responder_public_key k
  ++ credential_response k ++ responder_mac k.

Definition parse (b : bytes) : t := {|
  responder_nonce := slice 0 Len.NONCE b;
  responder_public_key := slice Len.NONCE Len.PUBLIC_KEY b;
  credential_response :=
    slice (Len.NONCE + Len.PUBLIC_KEY) Len.CREDENTIAL_RESPONSE b;
  responder_mac :=
    skipn (Len.NONCE + Len.PUBLIC_KEY + Len.CREDENTIAL_RESPONSE) b
|}.

(** The sizes the fields of a KE2 have. *)
Definition well_sized (k : t) : Prop :=
  length (responder_nonce k) = N.to_nat (NONCE_LENGTH canonical)
  /\ length (responder_public_key k) = N.to_nat (PUBLIC_KEY_LENGTH canonical)
  /\ length (credential_response k)
     = N.to_nat (CREDENTIAL_RESPONSE_LENGTH canonical)
  /\ length (responder_mac k) = N.to_nat (MAC_LENGTH canonical).
End KE2.

(** The credential response inside KE2: a field of [PUBLIC_KEY_LENGTH]
    bytes followed by the envelope (the [static_assert] of opaque.h line
    29).  The 32-byte field carries the evaluated OPRF element (spec 4.4,
    generate_ke3 step 3; legacy opaque.h line 17). *)
Module CredentialResponse.
Record t : Type := {
  public_key_field : bytes;
  envelope : bytes
}.

Definition wire (c : t) : bytes := public_key_field c ++ envelope c.

Definition parse (b : bytes) : t := {|
  public_key_field := slice 0 Len.PUBLIC_KEY b;
  envelope := skipn Len.PUBLIC_KEY b
|}.

Definition well_sized (c : t) : Prop :=
  length (public_key_field c) = N.to_nat (PUBLIC_KEY_LENGTH canonical)
  /\ length (envelope c) = N.to_nat (ENVELOPE_LENGTH canonical).
End CredentialResponse.

(** Modelled from the spec: the states of the initiator's session, the
    state machine of section 4.4.  No header declares them.  [Fresh] is
    the state [state_create] returns. *)
Inductive Phase : Type :=
| Fresh
| AWAIT_REG_RESP
| DONE_REG
| AWAIT_KE2
| AWAIT_FINISH
| DONE_AUTH
| FAILED.

Definition Phase_eqb (a b : Phase) : bool :=
  match a, b with
  | Fresh, Fresh | AWAIT_REG_RESP, AWAIT_REG_RESP | DONE_REG, DONE_REG
  | AWAIT_KE2, AWAIT_KE2 | AWAIT_FINISH, AWAIT_FINISH
  | DONE_AUTH, DONE_AUTH | FAILED, FAILED => true
  | _, _ => false
  end.

(** Modelled from the spec: the session state of the canonical initiator,
    missing from the package, which has it only behind the opaque handle
    [opaque_client_state_handle_t] (opaque_client_c.h line 40).  Section 3
    lists what it holds: the password copy, the ephemeral key pair, the
    blind scalar, the initiator's nonce and, after KE2, the recovered
    long-term key pair, the responder's public key and the session key;
    step 12 of generate_ke3 stores the master key in it; section 4.4 gives
    it the state of the state machine.

    The one state structure the package declares for the initiator,
    [struct ClientState] of the legacy client.h (lines 23-35), has the
    first nine buffers below, under these names, and neither a master key
    nor a state of the session. *)
Module InitiatorState.
Record t : Type := {
  password : bytes;
  client_private_key : bytes;
  client_public_key : bytes;
  client_ephemeral_private_key : bytes;
  client_ephemeral_public_key : bytes;
  server_public_key : bytes;
  session_key : bytes;
  oprf_blind_scalar : bytes;
  client_nonce : bytes;
  master_key : bytes;
  phase : Phase
}.

(** Modelled from the spec: the state [state_create] returns, every
    buffer empty. *)
Definition create : t := {|
  password := []; client_private_key := []; client_public_key := [];
  client_ephemeral_private_key := []; client_ephemeral_public_key := [];
  server_public_key := []; session_key := []; oprf_blind_scalar := [];
  client_nonce := []; master_key := []; phase := Fresh
|}.

(** Modelled from the spec: zeroization of the state (section 3,
    invariant 2).  Every buffer is overwritten with zeros, its size kept,
    and the state machine moves to [ph]. *)
Definition wipe (ph : Phase) (s : t) : t := {|
  password := zeroize (password s);
  client_private_key := zeroize (client_private_key s);
  client_public_key := zeroize (client_public_key s);
  client_ephemeral_private_key := zeroize (client_ephemeral_private_key s);
  client_ephemeral_public_key := zeroize (client_ephemeral_public_key s);
  server_public_key := zeroize (server_public_key s);
  session_key := zeroize (session_key s);
  oprf_blind_scalar := zeroize (oprf_blind_scalar s);
  client_nonce := zeroize (client_nonce s);
  master_key := zeroize (master_key s);
  phase := ph
|}.
End InitiatorState.

(** Modelled from the spec: what an initiator is configured with, the
    responder's public key (sections 3, invariant 3, and 5).
    [class OpaqueClient] of client.h (lines 36-73) is constructed from a
    [ServerPublicKey] and keeps its data behind a private [Impl]. *)
Module OpaqueClient.
Record t : Type := { server_public_key : bytes }.
End OpaqueClient.

(* ------------------------------------------------------------------ *)
(** * The oblivious PRF *)

(** Namespace [oblivious_prf] of opaque.h (lines 133-144): declarations
    only, the bodies follow section 4.2 of the specification. *)
Module oblivious_prf.
Section WithBackend.
Variable B : Backend.

(** Modelled from the spec: the body of [oblivious_prf::blind], missing
    from the package.  Section 4.2: pick a random nonzero scalar [r],
    compute [H(input) * r], return both. *)
Definition blind (input : bytes) : M (RNG B) (bytes * bytes) :=
  r <- random_scalar B ;;
  h <- lift (hash_to_group B input) ;;
  blinded <- lift (scalar_mult B r h) ;;
  ret (blinded, r).

(** Modelled from the spec: the body of [oblivious_prf::evaluate],
    missing from the package.  Section 4.2:
    [evaluated = blinded * oprf_key]. *)
Definition evaluate (blinded_element oprf_key : bytes) : outcome bytes :=
  scalar_mult B oprf_key blinded_element.

(** Modelled from the spec: the body of [oblivious_prf::finalize],
    missing from the package.  Section 4.2:
    [unblinded = evaluated * r^-1], output = HKDF-Extract over
    [input || unblinded]. *)
Definition finalize (input blind_scalar evaluated_element : bytes)
  : outcome bytes :=
  let? r_inv := scalar_invert B blind_scalar in
  let? unblinded := scalar_mult B r_inv evaluated_element in
  key_derivation_extract B [] (input ++ unblinded).
End WithBackend.
End oblivious_prf.

(* ------------------------------------------------------------------ *)
(** * The envelope *)

(** Namespace [envelope] of opaque.h (lines 172-180): declarations only,
    the bodies follow section 4.3 of the specification. *)
Module envelope.
Section WithBackend.
Variable B : Backend.

(** Modelled from the spec: step 2 of seal,
    [envelope_key = HKDF-Expand(randomized_pwd, "EnvelopeKey" || nonce, 32)]. *)
Definition envelope_key (randomized_pwd nonce : bytes) : outcome bytes :=
  key_derivation_expand B randomized_pwd (label "EnvelopeKey" ++ nonce) 32.

(** Modelled from the spec: step 5 of seal,
    [outer_mac_key = HKDF-Expand(randomized_pwd, "EnvelopeMAC" || nonce, 32)]. *)
Definition outer_mac_key (randomized_pwd nonce : bytes) : outcome bytes :=
  key_derivation_expand B randomized_pwd (label "EnvelopeMAC" ++ nonce) 32.

(** Modelled from the spec: step 6 of seal, the first 48 - 16 bytes of
    [HMAC(outer_mac_key, nonce || responder_pk || initiator_pk)]. *)
Definition outer_tag (mac_key nonce responder_pk initiator_pk : bytes)
  : outcome bytes :=
  let? mac := hmac B mac_key (nonce ++ responder_pk ++ initiator_pk) in
  Ok (firstn Len.OUTER_TAG mac).

(** Modelled from the spec: the body of [envelope::seal], missing from
    the package.  Section 4.3, steps 1-7: a fresh nonce, the envelope key,
    the plaintext [initiator_sk || responder_pk || master_key] encrypted
    under it, and the tag region: outer tag, then the cipher's tag. *)
Definition seal (randomized_pwd responder_public_key initiator_private_key
                 initiator_public_key master_key : bytes)
  : M (RNG B) Envelope.t :=
  nonce <- random_bytes B Len.NONCE ;;
  key <- lift (envelope_key randomized_pwd nonce) ;;
  let plaintext :=
    initiator_private_key ++ responder_public_key ++ master_key in
  '(ct, inner_tag) <- lift (encrypt_envelope B key plaintext nonce) ;;
  mac_key <- lift (outer_mac_key randomized_pwd nonce) ;;
  outer <- lift (outer_tag mac_key nonce responder_public_key
                           initiator_public_key) ;;
  ret {| Envelope.nonce := nonce;
         Envelope.ciphertext := ct;
         Envelope.auth_tag := outer ++ inner_tag |}.

(** The out-parameters of [open], in the order of the declaration. *)
Record opened : Type := {
  responder_public_key : bytes;
  initiator_private_key : bytes;
  initiator_public_key : bytes;
  master_key : bytes
}.

(** Modelled from the spec: the body of [envelope::open], missing from
    the package.  Section 4.3: recompute both keys, open the ciphertext
    under the cipher's tag, split the plaintext, derive the initiator's
    public key again from its private key, compare the outer tag and the
    witnessed responder key with the known one; any mismatch is an
    [AuthenticationError]. *)
Definition open (e : Envelope.t) (randomized_pwd
                 known_responder_public_key : bytes) : outcome opened :=
  let? key := envelope_key randomized_pwd (Envelope.nonce e) in
  let? mac_key := outer_mac_key randomized_pwd (Envelope.nonce e) in
  let outer := firstn Len.OUTER_TAG (Envelope.auth_tag e) in
  let inner_tag := skipn Len.OUTER_TAG (Envelope.auth_tag e) in
  let? plaintext :=
    decrypt_envelope B key (Envelope.ciphertext e) (Envelope.nonce e)
                     inner_tag in
  let isk := slice 0 Len.PRIVATE_KEY plaintext in
  let rpk := slice Len.PRIVATE_KEY Len.PUBLIC_KEY plaintext in
  let mk := skipn (Len.PRIVATE_KEY + Len.PUBLIC_KEY) plaintext in
  let? ipk := scalar_mult B isk (base_point B) in
  let? expected := outer_tag mac_key (Envelope.nonce e) rpk ipk in
  if constant_time_equal expected outer
     && constant_time_equal rpk known_responder_public_key
  then Ok {| responder_public_key := rpk;
             initiator_private_key := isk;
             initiator_public_key := ipk;
             master_key := mk |}
  else Err AuthenticationError.
End WithBackend.
End envelope.

(** The backend whose cipher refuses a nonce shorter than
    [crypto_secretbox_NONCEBYTES] and is the cipher of [B] otherwise. *)
Definition with_nonce_check (B : Backend) : Backend := {|
  RNG := RNG B;
  random_bytes := random_bytes B;
  random_scalar := random_scalar B;
  base_point := base_point B;
  derive_key_pair := derive_key_pair B;
  scalar_mult := scalar_mult B;
  scalar_invert := scalar_invert B;
  scalar_reduce := scalar_reduce B;
  hash_to_group := hash_to_group B;
  hash := hash B;
  key_derivation_extract := key_derivation_extract B;
  key_derivation_expand := key_derivation_expand B;
  hmac := hmac B;
  encrypt_envelope := fun key plaintext nonce =>
    if (length nonce <? N.to_nat crypto_secretbox_NONCEBYTES)%nat
    then Err InvalidInput
    else encrypt_envelope B key plaintext nonce;
  decrypt_envelope := decrypt_envelope B
|}.

(* ------------------------------------------------------------------ *)
(** * The key schedule *)

(** Section 4.4, generate_ke3 steps 4, 6 and 8-11, and the generation of
    a key pair. *)
Section KeySchedule.
Variable B : Backend.

(** Modelled from the spec: step 6,
    [T = hash(KE1 || credential_response || responder_nonce ||
    responder_epk)]. *)
Definition transcript (ke1 credential_response responder_nonce
                       responder_epk : bytes) : bytes :=
  hash B (ke1 ++ credential_response ++ responder_nonce ++ responder_epk).

(** Modelled from the spec: steps 8 and 9, [prk = HKDF-Extract(T, dh1 ||
    dh2 || dh3)], then the handshake secret and the session key, 64 bytes
    each, expanded from [prk]. *)
Definition key_schedule (T dh1 dh2 dh3 : bytes) : outcome (bytes * bytes) :=
  let? prk := key_derivation_extract B T (dh1 ++ dh2 ++ dh3) in
  let? handshake_secret := key_derivation_expand B prk (label "Handshake") 64 in
  let? session_key :=
    key_derivation_expand B prk (label "SessionKey") Len.SESSION_KEY in
  Ok (handshake_secret, session_key).

(** Modelled from the spec: step 10,
    [HMAC(handshake_secret[:32], "ServerMAC" || T)]. *)
Definition responder_mac_of (handshake_secret T : bytes) : outcome bytes :=
  hmac B (firstn 32 handshake_secret) (label "ServerMAC" ++ T).

(** Modelled from the spec: step 11,
    [HMAC(handshake_secret[32:], "ClientMAC" || T || responder_mac)]. *)
Definition initiator_mac_of (handshake_secret T responder_mac : bytes)
  : outcome bytes :=
  hmac B (skipn 32 handshake_secret) (label "ClientMAC" ++ T ++ responder_mac).

(** Modelled from the spec: finalize_registration step 3,
    [randomized_pwd = HKDF-Extract(empty, oprf_output || password_hash)]. *)
Definition randomized_pwd (password oprf_output : bytes) : outcome bytes :=
  key_derivation_extract B [] (oprf_output ++ hash B password).

(** Modelled from the spec: "generate fresh key pair", a random seed
    through [derive_key_pair] (section 4.1); a seed that reduces to zero
    is reported as the failure [derive_key_pair] returns. *)
Definition generate_key_pair : M (RNG B) (bytes * bytes) :=
  seed <- random_bytes B Len.PRIVATE_KEY ;;
  lift (derive_key_pair B seed).
End KeySchedule.

(** [struct KE3], client.h lines 19-22. *)
Module KE3.
Record t : Type := { client_mac : bytes }.
Definition wire (k : t) : bytes := client_mac k.
End KE3.

(* ------------------------------------------------------------------ *)
(** * The initiator role *)

Section Initiator.
Variable B : Backend.

(** An operation of the initiator on a session state. *)
Definition session_op (A : Type) : Type :=
  InitiatorState.t -> RNG B -> outcome A * InitiatorState.t * RNG B.

(** Modelled from the spec: the frame every initiator operation shares
    (sections 4.4, 4.5 tie-breaks, 5 ordering).  The sizes of the inputs
    and the state of the session are validated first; a refused call
    returns [InvalidInput] before any cryptographic work and leaves the
    state and the random source as they were.  A failure after that
    destroys the state: its buffers are wiped and it is [FAILED]. *)
Definition session_call {A : Type} (accepted : bool)
           (body : M (RNG B) (A * InitiatorState.t)) : session_op A :=
  fun st g =>
    if accepted then
      match body g with
      | (Ok (a, st'), g') => (Ok a, st', g')
      | (Err r, g') => (Err r, InitiatorState.wipe FAILED st, g')
      end
    else (Err InvalidInput, st, g).

(** Modelled from the spec: the body of [OpaqueClient::generate_ke1]
    (declared in client.h lines 54-59), missing from the package.  Section
    4.4: blind the password, draw an ephemeral key pair and a nonce, emit
    nonce, ephemeral public key, blinded element. *)
Definition generate_ke1 (client : OpaqueClient.t) (password : bytes)
  : session_op KE1.t :=
  fun st =>
    session_call (Phase_eqb (InitiatorState.phase st) Fresh)
      ('(blinded, r) <- oblivious_prf.blind B password ;;
       '(esk, epk) <- generate_key_pair B ;;
       nonce <- random_bytes B Len.NONCE ;;
       ret ({| KE1.client_nonce := nonce;
               KE1.client_public_key := epk;
               KE1.credential_request := blinded |},
            {| InitiatorState.password := password;
               InitiatorState.client_private_key := InitiatorState.client_private_key st;
               InitiatorState.client_public_key := InitiatorState.client_public_key st;
               InitiatorState.client_ephemeral_private_key := esk;
               InitiatorState.client_ephemeral_public_key := epk;
               InitiatorState.server_public_key := InitiatorState.server_public_key st;
               InitiatorState.session_key := InitiatorState.session_key st;
               InitiatorState.oprf_blind_scalar := r;
               InitiatorState.client_nonce := nonce;
               InitiatorState.master_key := InitiatorState.master_key st;
               InitiatorState.phase := AWAIT_KE2 |}))
      st.

(** Modelled from the spec: the KE1 message the transcript hashes (step
    6), rebuilt from what the state holds: the nonce, the ephemeral
    public key, and the blinded element computed again from the password
    and the blind scalar. *)
Definition ke1_of_state (st : InitiatorState.t) : outcome bytes :=
  let? h := hash_to_group B (InitiatorState.password st) in
  let? blinded := scalar_mult B (InitiatorState.oprf_blind_scalar st) h in
  Ok (InitiatorState.client_nonce st
      ++ InitiatorState.client_ephemeral_public_key st ++ blinded).

(** Modelled from the spec: section 4.4, generate_ke3 steps 1-12 on an
    accepted input, on the canonical layout of the credential response
    (evaluated element, then envelope); the body is missing from the
    package. *)
Definition generate_ke3_body (client : OpaqueClient.t) (ke2_data : bytes)
           (st : InitiatorState.t) : outcome (KE3.t * InitiatorState.t) :=
  let ke2 := KE2.parse ke2_data in
  let cred := CredentialResponse.parse (KE2.credential_response ke2) in
  let evaluated := CredentialResponse.public_key_field cred in
  let? oprf_output :=
    oblivious_prf.finalize B (InitiatorState.password st)
                           (InitiatorState.oprf_blind_scalar st) evaluated in
  let? rpwd := randomized_pwd B (InitiatorState.password st) oprf_output in
  let? opened :=
    envelope.open B (Envelope.parse (CredentialResponse.envelope cred)) rpwd
                  (OpaqueClient.server_public_key client) in
  let? ke1 := ke1_of_state st in
  let T := transcript B ke1 (KE2.credential_response ke2)
                      (KE2.responder_nonce ke2) (KE2.responder_public_key ke2) in
  let esk := InitiatorState.client_ephemeral_private_key st in
  let? dh1 := scalar_mult B esk (KE2.responder_public_key ke2) in
  let? dh2 := scalar_mult B esk (envelope.responder_public_key opened) in
  let? dh3 := scalar_mult B (envelope.initiator_private_key opened)
                          (KE2.responder_public_key ke2) in
  let? '(handshake_secret, session_key) := key_schedule B T dh1 dh2 dh3 in
  let? expected := responder_mac_of B handshake_secret T in
  if constant_time_equal expected (KE2.responder_mac ke2) then
    let? initiator_mac :=
      initiator_mac_of B handshake_secret T (KE2.responder_mac ke2) in
    Ok ({| KE3.client_mac := initiator_mac |},
        {| InitiatorState.password := InitiatorState.password st;
           InitiatorState.client_private_key := envelope.initiator_private_key opened;
           InitiatorState.client_public_key := envelope.initiator_public_key opened;
           InitiatorState.client_ephemeral_private_key := esk;
           InitiatorState.client_ephemeral_public_key :=
             InitiatorState.client_ephemeral_public_key st;
           InitiatorState.server_public_key := envelope.responder_public_key opened;
           InitiatorState.session_key := session_key;
           InitiatorState.oprf_blind_scalar := InitiatorState.oprf_blind_scalar st;
           InitiatorState.client_nonce := InitiatorState.client_nonce st;
           InitiatorState.master_key := envelope.master_key opened;
           InitiatorState.phase := AWAIT_FINISH |})
  else Err AuthenticationError.

(** Modelled from the spec: the body of [OpaqueClient::generate_ke3]
    (declared in client.h lines 60-65 and, for C, in opaque_client_c.h
    lines 152-159), missing from the package.  Section 4.4: the size of
    KE2 and the state of the session are checked, then steps 1-12 run. *)
Definition generate_ke3 (client : OpaqueClient.t) (ke2_data : bytes)
  : session_op KE3.t :=
  fun st =>
    session_call
      ((length ke2_data =? Len.KE2)%nat
       && Phase_eqb (InitiatorState.phase st) AWAIT_KE2)
      (lift (generate_ke3_body client ke2_data st))
      st.

(** Modelled from the spec: the body of [opaque_client_finish] in its
    canonical form, with a master key (declared in opaque_client_c.h lines
    171-178), missing from the package.  Section 4.4: return the stored
    session key and master key; the state is zeroized and [DONE_AUTH].
    The legacy declarations return the session key only, and the C++ one
    ([OpaqueClient::client_finish], client.h lines 66-69) takes the state
    as [const ClientState&]. *)
Definition client_finish (client : OpaqueClient.t)
  : session_op (bytes * bytes) :=
  fun st =>
    session_call (Phase_eqb (InitiatorState.phase st) AWAIT_FINISH)
      (ret ((InitiatorState.session_key st, InitiatorState.master_key st),
            InitiatorState.wipe DONE_AUTH st))
      st.
End Initiator.

(* ------------------------------------------------------------------ *)
(** * A small backend to run the model *)

(** A backend simple enough to evaluate: the group is the 32-byte strings
    under bytewise exclusive or, the random source is a tape of bytes, the
    hash and the derivations fold all their input into the requested size
    by exclusive or, the cipher reverses its plaintext and tags it with a
    fold of key, nonce and plaintext.  It has no cryptographic strength;
    it shows that the laws assumed of a backend can be met and lets the
    role functions run on concrete inputs. *)
Module Toy.
Definition bxor (a b : byte) : byte :=
  match Byte.to_bits a, Byte.to_bits b with
  | (a0, (a1, (a2, (a3, (a4, (a5, (a6, a7))))))),
    (b0, (b1, (b2, (b3, (b4, (b5, (b6, b7))))))) =>
      Byte.of_bits (xorb a0 b0, (xorb a1 b1, (xorb a2 b2, (xorb a3 b3,
                   (xorb a4 b4, (xorb a5 b5, (xorb a6 b6, xorb a7 b7)))))))
  end.

(** [b] cut or padded with zeros to [n] bytes. *)
Definition fit (n : nat) (b : bytes) : bytes :=
  map (fun i => nth i b x00) (seq 0 n).

Definition xor32 (a b : bytes) : bytes :=
  map (fun i => bxor (nth i a x00) (nth i b x00)) (seq 0 32).

(** [b] folded into [n] bytes: byte [i] of the result is the exclusive or
    of the bytes [i], [i + n], [i + 2n], ... of [b], so every byte of [b]
    counts. *)
Definition digest (n : nat) (b : bytes) : bytes :=
  map (fun i =>
         fold_right bxor x00
           (map (fun j => nth (i + j * n) b x00) (seq 0 (S (length b / n)))))
      (seq 0 n).

Definition tape_draw (n : nat) : M bytes bytes :=
  fun g =>
    if (length g <? n)%nat then (Err CryptoError, g)
    else (Ok (firstn n g), skipn n g).

Definition G : bytes := repeat x09 32.

Definition backend : Backend := {|
  RNG := bytes;
  random_bytes := tape_draw;
  random_scalar := tape_draw 32;
  base_point := G;
  derive_key_pair := fun seed => Ok (fit 32 seed, xor32 seed G);
  scalar_mult := fun s p => Ok (xor32 s p);
  scalar_invert := fun r => Ok r;
  scalar_reduce := fun b => Ok (fit 32 b);
  hash_to_group := fun input => Ok (fit 32 input);
  hash := fun b => digest 64 b;
  key_derivation_extract := fun salt ikm => Ok (digest 64 (salt ++ ikm));
  key_derivation_expand := fun prk info n => Ok (digest n (prk ++ info));
  hmac := fun k d => Ok (digest 64 (k ++ d));
  encrypt_envelope := fun key plaintext nonce =>
    Ok (rev plaintext, digest 16 (key ++ nonce ++ plaintext));
  decrypt_envelope := fun key ct nonce tag =>
    if bytes_eqb tag (digest 16 (key ++ nonce ++ rev ct)) then Ok (rev ct)
    else Err AuthenticationError
|}.

(** A tape of [n] bytes: [start], [start + 1], ... modulo 256. *)
Definition tape (start n : nat) : bytes :=
  map (fun i => match Byte.of_nat (i mod 256) with
                | Some b => b
                | None => x00
                end) (seq start n).

(** Scenario A of the specification: the responder's seed 01 02 .. 20 and
    its public key, the initiator configured with it, the password and the
    master key [00 x 31 || AA]. *)
Definition responder_sk : bytes := fit 32 (tape 1 32).
Definition responder_pk : bytes := xor32 responder_sk G.
Definition client : OpaqueClient.t :=
  {| OpaqueClient.server_public_key := responder_pk |}.

Definition password : bytes := label "correct horse".
Definition master : bytes := repeat x00 31 ++ [xaa].

Definition client_tape : bytes := tape 7 256.

(** The initiator's KE1 of the scenario, its state and its tape after
    it. *)
Definition ke1_run : outcome KE1.t * InitiatorState.t * bytes :=
  generate_ke1 backend client password InitiatorState.create client_tape.
Definition ke1 : bytes :=
  match ke1_run with
  | (Ok k, _, _) => KE1.wire k
  | _ => []
  end.
Definition state_after_ke1 : InitiatorState.t := snd (fst ke1_run).
Definition tape_after_ke1 : bytes := snd ke1_run.

(** Test data for the scenario: the values a KE2 answering [ke1] is made
    of.  The OPRF key of the credential, the long-term key pair the
    initiator sealed at registration, the responder's ephemeral key pair
    and nonce. *)
Definition oprf_key : bytes := fit 32 (tape 100 32).
Definition initiator_sk : bytes := fit 32 (tape 40 32).
Definition initiator_pk : bytes := xor32 initiator_sk G.
Definition responder_esk : bytes := fit 32 (tape 150 32).
Definition responder_epk : bytes := xor32 responder_esk G.
Definition responder_nonce : bytes := tape 200 32.

(** Test data: the envelope of the credential, sealed under the password
    of the scenario for [responder_pk], with the master key of the
    scenario.  The randomized password is the one the OPRF gives for this
    password and [oprf_key]. *)
Definition sealed_envelope : outcome Envelope.t :=
  let? h := hash_to_group backend password in
  let? unblinded := scalar_mult backend oprf_key h in
  let? oprf_output := key_derivation_extract backend [] (password ++ unblinded) in
  let? rpwd := randomized_pwd backend password oprf_output in
  fst (envelope.seal backend rpwd responder_pk initiator_sk initiator_pk master
                     (tape 60 32)).

(** Test data: a KE2 message in answer to [ke1] that the initiator of the
    scenario accepts.  Its credential response is the evaluated element
    followed by [sealed_envelope]; its MAC is the one generate_ke3 expects
    (section 4.4, steps 6-10), computed with the responder's private keys
    in place of the initiator's. *)
Definition ke2_data : outcome bytes :=
  let k1 := KE1.parse ke1 in
  let? env := sealed_envelope in
  let? evaluated :=
    oblivious_prf.evaluate backend (KE1.credential_request k1) oprf_key in
  let credential_response := evaluated ++ Envelope.wire env in
  let T := transcript backend ke1 credential_response responder_nonce
                      responder_epk in
  let? dh1 := scalar_mult backend responder_esk (KE1.client_public_key k1) in
  let? dh2 := scalar_mult backend responder_sk (KE1.client_public_key k1) in
  let? dh3 := scalar_mult backend responder_esk initiator_pk in
  let? '(handshake_secret, _) := key_schedule backend T dh1 dh2 dh3 in
  let? mac := responder_mac_of backend handshake_secret T in
  Ok (KE2.wire {| KE2.responder_nonce := responder_nonce;
                  KE2.responder_public_key := responder_epk;
                  KE2.credential_response := credential_response;
                  KE2.responder_mac := mac |}).

Definition ke2 : bytes :=
  match ke2_data with
  | Ok b => b
  | Err _ => []
  end.
End Toy.

(* ------------------------------------------------------------------ *)
(** * The allocator of [secure_vector] *)

(** [class SecureAllocator<T>], opaque.h lines 47-61 (legacy opaque.h lines
    30-40): no data member, and two comparison operators defined in the
    class body, for an allocator of any other value type [U]. *)
Module SecureAllocator.
(** An allocator object carries no state. *)
Inductive t (T : Type) : Type := make.
Arguments make {T}.

(** [operator==(const SecureAllocator<U>&) const noexcept { return true; }] *)
Definition eq {T U : Type} (a : t T) (b : t U) : bool := true.

(** [operator!=(const SecureAllocator<U>&) const noexcept { return false; }] *)
Definition neq {T U : Type} (a : t T) (b : t U) : bool := false.
End SecureAllocator.

(* ------------------------------------------------------------------ *)
(** * Moving the classes *)

(** The move operations C++ derives from the class bodies, for the classes
    of [Cxx] and for the remaining structures of the headers. *)
Module CxxMove.
(** [class.copy.ctor]: a class that declares no move constructor gets an
    implicit one only when it declares no copy constructor, no copy
    assignment, no move assignment and no destructor. *)
Definition implicit_move_constructor (c : Cxx.class_decl) : bool :=
  negb (Cxx.is_declared (Cxx.copy_constructor c)
        || Cxx.is_declared (Cxx.copy_assignment c)
        || Cxx.is_declared (Cxx.move_constructor c)
        || Cxx.is_declared (Cxx.move_assignment c)
        || Cxx.is_declared (Cxx.destructor c)).

(** Every member type of the headers can be moved ([std::unique_ptr]
    too). *)
Definition member_movable (m : Cxx.member_type) : bool :=
  match m with
  | Cxx.secure_bytes => true
  | Cxx.unique_ptr_Impl => true
  | Cxx.uint8_pointer => true
  | Cxx.size_type => true
  end.

(** Whether an object can be initialised from an rvalue of its class: by
    the declared move constructor, by the implicit one, or, when the class
    has no move constructor at all, by its copy constructor. *)
Definition move_constructible (c : Cxx.class_decl) : bool :=
  match Cxx.move_constructor c with
  | Cxx.declared => true
  | Cxx.deleted => false
  | Cxx.not_declared =>
      if implicit_move_constructor c
      then forallb member_movable (Cxx.data_members c)
      else Cxx.copy_constructible c
  end.

(** Initialising from an rvalue runs the copy constructor: the class has
    no move constructor, declared or implicit, and can be copied. *)
Definition moves_by_copy (c : Cxx.class_decl) : bool :=
  match Cxx.move_constructor c with
  | Cxx.not_declared =>
      negb (implicit_move_constructor c) && Cxx.copy_constructible c
  | _ => false
  end.

(** responder.h, lines 32-40: a constructor, a destructor, two
    [secure_bytes] members. *)
Definition ResponderKeyPair : Cxx.class_decl := {|
  Cxx.class_name := "ResponderKeyPair";
  Cxx.destructor := Cxx.declared;
  Cxx.copy_constructor := Cxx.not_declared;
  Cxx.copy_assignment := Cxx.not_declared;
  Cxx.move_constructor := Cxx.not_declared;
  Cxx.move_assignment := Cxx.not_declared;
  Cxx.data_members := repeat Cxx.secure_bytes 2
|}.

(** server.h, lines 26-32. *)
Definition ServerKeyPair : Cxx.class_decl := {|
  Cxx.class_name := "ServerKeyPair";
  Cxx.destructor := Cxx.declared;
  Cxx.copy_constructor := Cxx.not_declared;
  Cxx.copy_assignment := Cxx.not_declared;
  Cxx.move_constructor := Cxx.not_declared;
  Cxx.move_assignment := Cxx.not_declared;
  Cxx.data_members := repeat Cxx.secure_bytes 2
|}.

(** A structure that declares constructors only, with [n] [secure_bytes]
    members. *)
Definition plain_struct (name : string) (n : nat) : Cxx.class_decl := {|
  Cxx.class_name := name;
  Cxx.destructor := Cxx.not_declared;
  Cxx.copy_constructor := Cxx.not_declared;
  Cxx.copy_assignment := Cxx.not_declared;
  Cxx.move_constructor := Cxx.not_declared;
  Cxx.move_assignment := Cxx.not_declared;
  Cxx.data_members := repeat Cxx.secure_bytes n
|}.

(** The message and credential structures: opaque.h lines 98-131,
    responder.h lines 6-17, client.h lines 4-22. *)
Definition message_structs : list Cxx.class_decl :=
  [plain_struct "Envelope" 3; plain_struct "ResponderPublicKey" 1;
   plain_struct "InitiatorCredentials" 2; plain_struct "ResponderCredentials" 3;
   plain_struct "RegistrationResponse" 1; plain_struct "KE2" 4;
   plain_struct "RegistrationRequest" 1; plain_struct "RegistrationRecord" 2;
   plain_struct "KE1" 3; plain_struct "KE3" 1].

(** The role classes. *)
Definition role_classes : list Cxx.class_decl :=
  [Cxx.OpaqueClient; Cxx.OpaqueResponder; Cxx.OpaqueServer].

(** The structures that hold keys or session secrets behind a
    destructor. *)
Definition wiped_structs : list Cxx.class_decl :=
  Cxx.session_state_classes ++ [ResponderKeyPair; ServerKeyPair].
End CxxMove.

(* ------------------------------------------------------------------ *)
(** * The declarations of the C API *)

(** The functions the two C headers declare, with the types as written.
    [opaque_client_handle_t] and [opaque_client_state_handle_t] are
    typedefs of [void*] (opaque_client_c.h lines 39-40). *)
Module CDecl.
Local Open Scope string_scope.

Inductive c_type : Type :=
| c_void
| c_int
| c_size_t
| c_const_char_ptr        (* const char* *)
| c_const_uint8_ptr       (* const uint8_t* *)
| c_uint8_ptr             (* uint8_t* *)
| c_void_ptr              (* void* *)
| c_void_ptr_ptr          (* void** *)
| c_client_handle         (* opaque_client_handle_t *)
| c_client_handle_ptr     (* opaque_client_handle_t* *)
| c_state_handle          (* opaque_client_state_handle_t *)
| c_state_handle_ptr.     (* opaque_client_state_handle_t* *)

(** The type behind the typedefs. *)
Definition resolve (t : c_type) : c_type :=
  match t with
  | c_client_handle | c_state_handle => c_void_ptr
  | c_client_handle_ptr | c_state_handle_ptr => c_void_ptr_ptr
  | _ => t
  end.

Definition c_type_eqb (a b : c_type) : bool :=
  match a, b with
  | c_void, c_void | c_int, c_int | c_size_t, c_size_t
  | c_const_char_ptr, c_const_char_ptr
  | c_const_uint8_ptr, c_const_uint8_ptr | c_uint8_ptr, c_uint8_ptr
  | c_void_ptr, c_void_ptr | c_void_ptr_ptr, c_void_ptr_ptr
  | c_client_handle, c_client_handle
  | c_client_handle_ptr, c_client_handle_ptr
  | c_state_handle, c_state_handle
  | c_state_handle_ptr, c_state_handle_ptr => true
  | _, _ => false
  end.

Record c_function : Type := {
  c_name : string;
  c_return : c_type;
  c_params : list (string * c_type)
}.

(** ThirdParty/opaque_client.h, lines 29-82, in the order of the header. *)
Definition legacy_api : list c_function := [
  {| c_name := "opaque_client_get_version"; c_return := c_const_char_ptr;
     c_params := [] |};
  {| c_name := "opaque_client_create"; c_return := c_int;
     c_params := [("server_public_key", c_const_uint8_ptr);
                  ("key_length", c_size_t); ("handle", c_void_ptr_ptr)] |};
  {| c_name := "opaque_client_create_default"; c_return := c_int;
     c_params := [("handle", c_void_ptr_ptr)] |};
  {| c_name := "opaque_client_destroy"; c_return := c_void;
     c_params := [("handle", c_void_ptr)] |};
  {| c_name := "opaque_client_state_create"; c_return := c_int;
     c_params := [("handle", c_void_ptr_ptr)] |};
  {| c_name := "opaque_client_state_destroy"; c_return := c_void;
     c_params := [("handle", c_void_ptr)] |};
  {| c_name := "opaque_client_create_registration_request"; c_return := c_int;
     c_params := [("client_handle", c_void_ptr);
                  ("password", c_const_uint8_ptr);
                  ("password_length", c_size_t);
                  ("state_handle", c_void_ptr);
                  ("request_out", c_uint8_ptr);
                  ("request_length", c_size_t)] |};
  {| c_name := "opaque_client_finalize_registration"; c_return := c_int;
     c_params := [("client_handle", c_void_ptr);
                  ("response", c_const_uint8_ptr);
                  ("response_length", c_size_t);
                  ("state_handle", c_void_ptr);
                  ("record_out", c_uint8_ptr);
                  ("record_length", c_size_t)] |};
  {| c_name := "opaque_client_generate_ke1"; c_return := c_int;
     c_params := [("client_handle", c_void_ptr);
                  ("password", c_const_uint8_ptr);
                  ("password_length", c_size_t);
                  ("state_handle", c_void_ptr);
                  ("ke1_out", c_uint8_ptr);
                  ("ke1_length", c_size_t)] |};
  {| c_name := "opaque_client_generate_ke3"; c_return := c_int;
     c_params := [("client_handle", c_void_ptr);
                  ("ke2", c_const_uint8_ptr);
                  ("ke2_length", c_size_t);
                  ("state_handle", c_void_ptr);
                  ("ke3_out", c_uint8_ptr);
                  ("ke3_length", c_size_t)] |};
  {| c_name := "opaque_client_finish"; c_return := c_int;
     c_params := [("client_handle", c_void_ptr);
                  ("state_handle", c_void_ptr);
                  ("session_key_out", c_uint8_ptr);
                  ("session_key_length", c_size_t)] |}
].

(** Packages/.../include/opaque_client_c.h, lines 49-184, in the order of
    the header. *)
Definition canonical_api : list c_function := [
  {| c_name := "opaque_client_create"; c_return := c_int;
     c_params := [("server_public_key", c_const_uint8_ptr);
                  ("key_length", c_size_t);
                  ("handle", c_client_handle_ptr)] |};
  {| c_name := "opaque_client_create_default"; c_return := c_int;
     c_params := [("handle", c_client_handle_ptr)] |};
  {| c_name := "opaque_client_destroy"; c_return := c_void;
     c_params := [("handle", c_client_handle)] |};
  {| c_name := "opaque_client_state_create"; c_return := c_int;
     c_params := [("handle", c_state_handle_ptr)] |};
  {| c_name := "opaque_client_state_destroy"; c_return := c_void;
     c_params := [("handle", c_state_handle)] |};
  {| c_name := "opaque_client_create_registration_request"; c_return := c_int;
     c_params := [("client_handle", c_client_handle);
                  ("secure_key", c_const_uint8_ptr);
                  ("secure_key_length", c_size_t);
                  ("state_handle", c_state_handle);
                  ("request_out", c_uint8_ptr);
                  ("request_length", c_size_t)] |};
  {| c_name := "opaque_client_finalize_registration"; c_return := c_int;
     c_params := [("client_handle", c_client_handle);
                  ("response", c_const_uint8_ptr);
                  ("response_length", c_size_t);
                  ("master_key", c_const_uint8_ptr);
                  ("master_key_length", c_size_t);
                  ("state_handle", c_state_handle);
                  ("record_out", c_uint8_ptr);
                  ("record_length", c_size_t)] |};
  {| c_name := "opaque_client_generate_ke1"; c_return := c_int;
     c_params := [("client_handle", c_client_handle);
                  ("secure_key", c_const_uint8_ptr);
                  ("secure_key_length", c_size_t);
                  ("state_handle", c_state_handle);
                  ("ke1_out", c_uint8_ptr);
                  ("ke1_length", c_size_t)] |};
  {| c_name := "opaque_client_generate_ke3"; c_return := c_int;
     c_params := [("client_handle", c_client_handle);
                  ("ke2", c_const_uint8_ptr);
                  ("ke2_length", c_size_t);
                  ("state_handle", c_state_handle);
                  ("ke3_out", c_uint8_ptr);
                  ("ke3_length", c_size_t)] |};
  {| c_name := "opaque_client_finish"; c_return := c_int;
     c_params := [("client_handle", c_client_handle);
                  ("state_handle", c_state_handle);
                  ("session_key_out", c_uint8_ptr);
                  ("session_key_length", c_size_t);
                  ("master_key_out", c_uint8_ptr);
                  ("master_key_length", c_size_t)] |};
  {| c_name := "opaque_client_get_version"; c_return := c_const_char_ptr;
     c_params := [] |}
].

(** The declaration of [name] in an API. *)
Definition find_function (name : string) (api : list c_function)
  : option c_function :=
  find (fun f => String.eqb name (c_name f)) api.

(** The parameter types of a function as a caller passes them, typedefs
    resolved. *)
Definition param_types (f : c_function) : list c_type :=
  map (fun p => resolve (snd p)) (c_params f).

Fixpoint types_eqb (a b : list c_type) : bool :=
  match a, b with
  | [], [] => true
  | x :: a', y :: b' => c_type_eqb x y && types_eqb a' b'
  | _, _ => false
  end.

(** Two declarations a caller cannot tell apart: same return type, same
    parameter types in the same order. *)
Definition same_signature (f g : c_function) : bool :=
  c_type_eqb (resolve (c_return f)) (resolve (c_return g))
  && types_eqb (param_types f) (param_types g).

(** The functions of [old] that [new] does not declare with the same
    signature. *)
Definition changed (old new : list c_function) : list string :=
  map c_name
      (filter (fun f =>
                 match find_function (c_name f) new with
                 | Some g => negb (same_signature f g)
                 | None => true
                 end) old).

(** The parameter types of [name] in an API, empty when absent. *)
Definition params_of (name : string) (api : list c_function) : list c_type :=
  match find_function name api with
  | Some f => param_types f
  | None => []
  end.
End CDecl.

(* ------------------------------------------------------------------ *)
(** * The buffer sizes the C header documents *)

(** The [@param] lines of opaque_client_c.h that state a size: "must be
    32" is [exactly], "must be >= 32" is [at_least]. *)
Module CDoc.
Inductive requirement : Type :=
| exactly (n : N)
| at_least (n : N).

Definition required (r : requirement) : N :=
  match r with
  | exactly n => n
  | at_least n => n
  end.

(** Whether a length satisfies the documented requirement. *)
Definition meets (r : requirement) (len : N) : bool :=
  match r with
  | exactly n => (len =? n)%N
  | at_least n => (n <=? len)%N
  end.

Record documented_length : Type := {
  d_function : string;
  d_parameter : string;
  d_output : bool;               (* the length of an output buffer *)
  d_requirement : requirement;
  d_macros : N                   (* the size the macros give the buffer *)
}.

(** opaque_client_c.h, lines 42-178.  The record is documented as
    "envelope + public key"; the session key has no macro of its own, its
    64 bytes are those of [OPAQUE_HASH_LENGTH]. *)
Definition documented_lengths : list documented_length := [
  {| d_function := "opaque_client_create"; d_parameter := "key_length";
     d_output := false; d_requirement := exactly 32;
     d_macros := CApi.OPAQUE_PUBLIC_KEY_LENGTH |};
  {| d_function := "opaque_client_create_registration_request";
     d_parameter := "request_length";
     d_output := true; d_requirement := at_least 32;
     d_macros := CApi.OPAQUE_REGISTRATION_REQUEST_LENGTH |};
  {| d_function := "opaque_client_finalize_registration";
     d_parameter := "response_length";
     d_output := false; d_requirement := at_least 96;
     d_macros := CApi.OPAQUE_REGISTRATION_RESPONSE_LENGTH |};
  {| d_function := "opaque_client_finalize_registration";
     d_parameter := "master_key_length";
     d_output := false; d_requirement := exactly 32;
     d_macros := CApi.OPAQUE_MASTER_KEY_LENGTH |};
  {| d_function := "opaque_client_finalize_registration";
     d_parameter := "record_length";
     d_output := true; d_requirement := at_least 208;
     d_macros := CApi.OPAQUE_ENVELOPE_LENGTH + CApi.OPAQUE_PUBLIC_KEY_LENGTH |};
  {| d_function := "opaque_client_generate_ke1"; d_parameter := "ke1_length";
     d_output := true; d_requirement := at_least 96;
     d_macros := CApi.OPAQUE_KE1_LENGTH |};
  {| d_function := "opaque_client_generate_ke3"; d_parameter := "ke2_length";
     d_output := false; d_requirement := at_least 336;
     d_macros := CApi.OPAQUE_KE2_LENGTH |};
  {| d_function := "opaque_client_generate_ke3"; d_parameter := "ke3_length";
     d_output := true; d_requirement := at_least 64;
     d_macros := CApi.OPAQUE_KE3_LENGTH |};
  {| d_function := "opaque_client_finish";
     d_parameter := "session_key_length";
     d_output := true; d_requirement := at_least 64;
     d_macros := CApi.OPAQUE_HASH_LENGTH |};
  {| d_function := "opaque_client_finish";
     d_parameter := "master_key_length";
     d_output := true; d_requirement := exactly 32;
     d_macros := CApi.OPAQUE_MASTER_KEY_LENGTH |}
].

Definition is_exact (r : requirement) : bool :=
  match r with
  | exactly _ => true
  | at_least _ => false
  end.
End CDoc.

(* ================================================================== *)
(** * Properties *)

(* ------------------------------------------------------------------ *)
(** ** Lists of bytes *)

Lemma firstn_app_exact (n : nat) (a b : bytes) :
  length a = n -> firstn n (a ++ b) = a.
Proof.
  intros <-. rewrite firstn_app, Nat.sub_diag, firstn_all. simpl.
  apply app_nil_r.
Qed.

Lemma skipn_app_exact (n : nat) (a b : bytes) :
  length a = n -> skipn n (a ++ b) = b.
Proof.
  intros <-. rewrite skipn_app, Nat.sub_diag, skipn_all. reflexivity.
Qed.

Lemma slice_0 (n : nat) (b : bytes) : slice 0 n b = firstn n b.
Proof. reflexivity. Qed.

Lemma slice_head (n : nat) (a b : bytes) :
  length a = n -> slice 0 n (a ++ b) = a.
Proof. intros H. rewrite slice_0. now apply firstn_app_exact. Qed.

Lemma slice_skip (off n : nat) (a b : bytes) :
  length a = off -> slice off n (a ++ b) = firstn n b.
Proof. intros H. unfold slice. now rewrite skipn_app_exact. Qed.

Lemma skipn_add (i j : nat) (b : bytes) :
  skipn (i + j) b = skipn j (skipn i b).
Proof. rewrite skipn_skipn. f_equal. apply Nat.add_comm. Qed.

Lemma slice_add (i j n : nat) (b : bytes) :
  slice (i + j) n b = slice j n (skipn i b).
Proof. unfold slice. now rewrite skipn_add. Qed.

Lemma bytes_eqb_refl (a : bytes) : bytes_eqb a a = true.
Proof.
  induction a as [|x a IH]; simpl; [reflexivity|].
  rewrite IH, andb_true_r. now apply Byte.byte_dec_lb.
Qed.

(* ------------------------------------------------------------------ *)
(** ** Wire layouts *)

Lemma KE2_wire_length (k : KE2.t) :
  length (KE2.wire k)
  = (length (KE2.responder_nonce k) + length (KE2.responder_public_key k)
     + length (KE2.credential_response k) + length (KE2.responder_mac k))%nat.
Proof. unfold KE2.wire. rewrite !length_app. lia. Qed.

Lemma KE2_parse_wire (k : KE2.t) :
  length (KE2.responder_nonce k) = Len.NONCE ->
  length (KE2.responder_public_key k) = Len.PUBLIC_KEY ->
  length (KE2.credential_response k) = Len.CREDENTIAL_RESPONSE ->
  KE2.parse (KE2.wire k) = k.
Proof.
  intros Hn Hp Hc. destruct k as [n p c m]; simpl in *.
  unfold KE2.parse, KE2.wire;
    cbn [KE2.responder_nonce KE2.responder_public_key
         KE2.credential_response KE2.responder_mac].
  rewrite slice_head by assumption.
  rewrite (slice_skip _ _ _ _ Hn), (firstn_app_exact _ _ _ Hp).
  rewrite slice_add, (skipn_app_exact _ _ _ Hn), (slice_skip _ _ _ _ Hp).
  rewrite (firstn_app_exact _ _ _ Hc).
  rewrite !skipn_add.
  rewrite (skipn_app_exact _ _ _ Hn), (skipn_app_exact _ _ _ Hp),
    (skipn_app_exact _ _ _ Hc).
  reflexivity.
Qed.

Lemma CredentialResponse_parse_wire (c : CredentialResponse.t) :
  length (CredentialResponse.public_key_field c) = Len.PUBLIC_KEY ->
  CredentialResponse.parse (CredentialResponse.wire c) = c.
Proof.
  intros Hp. destruct c as [p e]; simpl in *.
  unfold CredentialResponse.parse, CredentialResponse.wire;
    cbn [CredentialResponse.public_key_field CredentialResponse.envelope].
  now rewrite (slice_head _ _ _ Hp), (skipn_app_exact _ _ _ Hp).
Qed.

Lemma Envelope_parse_wire (e : Envelope.t) :
  length (Envelope.nonce e) = Len.NONCE ->
  length (Envelope.ciphertext e) = Len.ENVELOPE_CIPHERTEXT ->
  Envelope.parse (Envelope.wire e) = e.
Proof.
  intros Hn Hc. destruct e as [n c t]; simpl in *.
  unfold Envelope.parse, Envelope.wire;
    cbn [Envelope.nonce Envelope.ciphertext Envelope.auth_tag].
  rewrite (slice_head _ _ _ Hn), (slice_skip _ _ _ _ Hn), (firstn_app_exact _ _ _ Hc).
  now rewrite skipn_add, (skipn_app_exact _ _ _ Hn), (skipn_app_exact _ _ _ Hc).
Qed.

Lemma KE1_parse_wire (k : KE1.t) :
  length (KE1.client_nonce k) = Len.NONCE ->
  length (KE1.client_public_key k) = Len.PUBLIC_KEY ->
  KE1.parse (KE1.wire k) = k.
Proof.
  intros Hn Hp. destruct k as [n p c]; simpl in *.
  unfold KE1.parse, KE1.wire;
    cbn [KE1.client_nonce KE1.client_public_key KE1.credential_request].
  rewrite (slice_head _ _ _ Hn), (slice_skip _ _ _ _ Hn), (firstn_app_exact _ _ _ Hp).
  now rewrite skipn_add, (skipn_app_exact _ _ _ Hn), (skipn_app_exact _ _ _ Hp).
Qed.

(* ------------------------------------------------------------------ *)
(** ** The small backend meets the laws *)

Lemma xorb_swap (a b c : bool) : xorb a (xorb b c) = xorb b (xorb a c).
Proof. now destruct a, b, c. Qed.

Lemma xorb_cancel (r k h : bool) : xorb r (xorb k (xorb r h)) = xorb k h.
Proof. now destruct r, k, h. Qed.

Ltac bits_of x :=
  let t := fresh "t" in
  destruct (Byte.to_bits x) as [? [? [? [? [? [? [? ?]]]]]]] eqn:t.

Lemma toy_bxor_swap (a b c : byte) :
  Toy.bxor a (Toy.bxor b c) = Toy.bxor b (Toy.bxor a c).
Proof.
  unfold Toy.bxor. bits_of a. bits_of b. bits_of c.
  rewrite !Byte.to_bits_of_bits. f_equal.
  repeat (apply f_equal2; [apply xorb_swap|]). apply xorb_swap.
Qed.

Lemma toy_bxor_cancel (r k h : byte) :
  Toy.bxor r (Toy.bxor k (Toy.bxor r h)) = Toy.bxor k h.
Proof.
  unfold Toy.bxor. bits_of r. bits_of k. bits_of h.
  rewrite !Byte.to_bits_of_bits. f_equal.
  repeat (apply f_equal2; [apply xorb_cancel|]). apply xorb_cancel.
Qed.

Lemma toy_fit_length (n : nat) (b : bytes) : length (Toy.fit n b) = n.
Proof. unfold Toy.fit. now rewrite length_map, length_seq. Qed.

Lemma toy_xor32_length (a b : bytes) : length (Toy.xor32 a b) = 32%nat.
Proof. unfold Toy.xor32. now rewrite length_map, length_seq. Qed.

Lemma nth_map_seq (f : nat -> byte) (n i : nat) :
  (i < n)%nat -> nth i (map f (seq 0 n)) x00 = f i.
Proof.
  intros Hi. rewrite (nth_indep _ x00 (f 0%nat)) by now rewrite length_map, length_seq.
  rewrite (map_nth f (seq 0 n) 0%nat i). now rewrite seq_nth.
Qed.

Lemma toy_nth_xor32 (a b : bytes) (i : nat) :
  (i < 32)%nat ->
  nth i (Toy.xor32 a b) x00 = Toy.bxor (nth i a x00) (nth i b x00).
Proof. intros Hi. unfold Toy.xor32. now rewrite nth_map_seq. Qed.

Lemma toy_nth_fit (n : nat) (b : bytes) (i : nat) :
  (i < n)%nat -> nth i (Toy.fit n b) x00 = nth i b x00.
Proof. intros Hi. unfold Toy.fit. now rewrite nth_map_seq. Qed.

Lemma toy_xor32_ext (a a' b b' : bytes) :
  (forall i, (i < 32)%nat ->
             Toy.bxor (nth i a x00) (nth i b x00)
             = Toy.bxor (nth i a' x00) (nth i b' x00)) ->
  Toy.xor32 a b = Toy.xor32 a' b'.
Proof.
  intros H. unfold Toy.xor32. apply map_ext_in.
  intros i Hi. apply in_seq in Hi. apply H. lia.
Qed.

Lemma toy_tape_draw_length (n : nat) (g b g' : bytes) :
  Toy.tape_draw n g = (Ok b, g') -> length b = n.
Proof.
  unfold Toy.tape_draw. destruct (length g <? n)%nat eqn:E; [discriminate|].
  intros H. injection H as <- _. apply Nat.ltb_ge in E.
  rewrite length_firstn. lia.
Qed.

Lemma toy_digest_length (n : nat) (b : bytes) : length (Toy.digest n b) = n.
Proof. unfold Toy.digest. now rewrite length_map, length_seq. Qed.

Lemma toy_lawful : Lawful Toy.backend.
Proof.
  constructor; cbn [Toy.backend random_bytes derive_key_pair scalar_mult
                    scalar_invert base_point hash key_derivation_expand hmac
                    encrypt_envelope decrypt_envelope].
  - apply toy_tape_draw_length.
  - intros seed sk pk H. injection H as <- <-.
    split; [apply toy_fit_length | apply toy_xor32_length].
  - intros seed sk pk H. injection H as <- <-.
    apply f_equal, toy_xor32_ext. intros i Hi. now rewrite toy_nth_fit.
  - intros s p q H. injection H as <-. apply toy_xor32_length.
  - intros a b pa pb Ha Hb. injection Ha as <-. injection Hb as <-.
    apply f_equal, toy_xor32_ext. intros i Hi.
    rewrite !toy_nth_xor32 by assumption. apply toy_bxor_swap.
  - intros r k h blinded evaluated Hb He.
    injection Hb as <-. injection He as <-.
    exists r. split; [reflexivity|].
    apply f_equal, toy_xor32_ext. intros i Hi.
    rewrite !toy_nth_xor32 by assumption. apply toy_bxor_cancel.
  - intros b. apply toy_digest_length.
  - intros prk info n okm H. injection H as <-. apply toy_digest_length.
  - intros k d mac H. injection H as <-. apply toy_digest_length.
  - intros k pt n ct tag H. injection H as <- <-.
    split; [apply length_rev | apply toy_digest_length].
  - intros k pt n ct tag H. injection H as <- <-.
    now rewrite rev_involutive, bytes_eqb_refl.
  - intros k ct n tag pt.
    destruct (bytes_eqb tag (Toy.digest 16 (k ++ n ++ rev ct))); [|discriminate].
    intros H. injection H as <-. apply length_rev.
Qed.

(* ------------------------------------------------------------------ *)
(** ** Sizes and layouts of the canonical header *)

Lemma firstn_exact (n : nat) (b : bytes) : length b = n -> firstn n b = b.
Proof. intros <-. apply firstn_all. Qed.

(** C3.  The wire sizes of the canonical header compose exactly.  KE2 is
    336 bytes: responder nonce (32), responder ephemeral public key (32),
    credential response (208), responder MAC (64), in this order; a
    credential response is 208 bytes: a 32-byte public-key-sized field
    followed by the 176-byte envelope.  So [KE2_LENGTH = NONCE_LENGTH +
    PUBLIC_KEY_LENGTH + CREDENTIAL_RESPONSE_LENGTH + MAC_LENGTH] and
    [CREDENTIAL_RESPONSE_LENGTH = PUBLIC_KEY_LENGTH + ENVELOPE_LENGTH],
    as the two [static_assert]s of opaque.h say; the macros of the C
    header compose in the same way. *)
Theorem wire_sizes_compose (k : KE2.t) (c : CredentialResponse.t)
        (Hk : KE2.well_sized k) (Hc : CredentialResponse.well_sized c) :
  (KE2_LENGTH canonical = 336
   /\ CREDENTIAL_RESPONSE_LENGTH canonical = 208
   /\ NONCE_LENGTH canonical = 32 /\ PUBLIC_KEY_LENGTH canonical = 32
   /\ MAC_LENGTH canonical = 64 /\ ENVELOPE_LENGTH canonical = 176
   /\ KE2_LENGTH canonical
      = NONCE_LENGTH canonical + PUBLIC_KEY_LENGTH canonical
        + CREDENTIAL_RESPONSE_LENGTH canonical + MAC_LENGTH canonical
   /\ CREDENTIAL_RESPONSE_LENGTH canonical
      = PUBLIC_KEY_LENGTH canonical + ENVELOPE_LENGTH canonical)%N
  /\ static_assert_ke2 canonical = true
  /\ static_assert_credential_response canonical = true
  /\ static_assert_ke2 CApi.as_header = true
  /\ static_assert_credential_response CApi.as_header = true
  /\ length (KE2.wire k) = N.to_nat (KE2_LENGTH canonical)
  /\ slice 0 32 (KE2.wire k) = KE2.responder_nonce k
  /\ slice 32 32 (KE2.wire k) = KE2.responder_public_key k
  /\ slice 64 208 (KE2.wire k) = KE2.credential_response k
  /\ slice 272 64 (KE2.wire k) = KE2.responder_mac k
  /\ length (CredentialResponse.wire c)
     = N.to_nat (CREDENTIAL_RESPONSE_LENGTH canonical)
  /\ slice 0 32 (CredentialResponse.wire c)
     = CredentialResponse.public_key_field c
  /\ slice 32 176 (CredentialResponse.wire c) = CredentialResponse.envelope c.
Proof.
  destruct Hk as (Hn & Hp & Hcr & Hm). destruct Hc as (Hf & He).
  change (N.to_nat (NONCE_LENGTH canonical)) with Len.NONCE in Hn.
  change (N.to_nat (PUBLIC_KEY_LENGTH canonical)) with Len.PUBLIC_KEY in Hp, Hf.
  change (N.to_nat (CREDENTIAL_RESPONSE_LENGTH canonical))
    with Len.CREDENTIAL_RESPONSE in Hcr.
  change (N.to_nat (MAC_LENGTH canonical)) with Len.MAC in Hm.
  change (N.to_nat (ENVELOPE_LENGTH canonical)) with Len.ENVELOPE in He.
  pose proof (KE2_parse_wire k Hn Hp Hcr) as Hparse.
  pose proof (CredentialResponse_parse_wire c Hf) as Hcparse.
  split; [now repeat split|].
  split; [reflexivity|]. split; [reflexivity|].
  split; [reflexivity|]. split; [reflexivity|].
  split. { rewrite KE2_wire_length, Hn, Hp, Hcr, Hm. reflexivity. }
  split. { exact (f_equal KE2.responder_nonce Hparse). }
  split. { exact (f_equal KE2.responder_public_key Hparse). }
  split. { exact (f_equal KE2.credential_response Hparse). }
  split.
  { pose proof (f_equal KE2.responder_mac Hparse) as H.
    unfold slice. change (skipn 272 (KE2.wire k))
      with (KE2.responder_mac (KE2.parse (KE2.wire k))).
    rewrite H. now apply firstn_exact. }
  split.
  { unfold CredentialResponse.wire. rewrite length_app, Hf, He. reflexivity. }
  split. { exact (f_equal CredentialResponse.public_key_field Hcparse). }
  pose proof (f_equal CredentialResponse.envelope Hcparse) as H.
  unfold slice. change (skipn 32 (CredentialResponse.wire c))
    with (CredentialResponse.envelope
            (CredentialResponse.parse (CredentialResponse.wire c))).
  rewrite H. now apply firstn_exact.
Qed.

(** A KE2 and a credential response of the declared sizes. *)
Lemma wire_sizes_compose_witness :
  let c := {| CredentialResponse.public_key_field := repeat x01 32;
              CredentialResponse.envelope := repeat x02 176 |} in
  let k := {| KE2.responder_nonce := repeat x03 32;
              KE2.responder_public_key := repeat x04 32;
              KE2.credential_response := CredentialResponse.wire c;
              KE2.responder_mac := repeat x05 64 |} in
  length (KE2.wire k) = 336%nat
  /\ slice 64 208 (KE2.wire k) = CredentialResponse.wire c
  /\ slice 32 176 (CredentialResponse.wire c) = repeat x02 176.
Proof.
  intros c k.
  assert (Hk : KE2.well_sized k) by (repeat split; reflexivity).
  assert (Hc : CredentialResponse.well_sized c) by (repeat split; reflexivity).
  pose proof (wire_sizes_compose k c Hk Hc) as H.
  split; [apply H|]. split; apply H.
Defined.

(* ------------------------------------------------------------------ *)
(** ** The error taxonomy *)

(** C6.  The error taxonomy is the same in every interface: the C++
    [Result] of both generations of opaque.h and the C [opaque_result_t]
    give Success 0, InvalidInput -1, CryptoError -2, MemoryError -3,
    ValidationError -4, AuthenticationError -5, InvalidPublicKey -6; the
    enumerations have no other member, and the integer status of every
    operation is one of these seven codes, each of which is the status of
    some outcome. *)
Theorem error_taxonomy_fixed :
  map Result_code all_results = taxonomy
  /\ map LegacyResult.Result_code LegacyResult.all_results = taxonomy
  /\ map opaque_result_code all_opaque_results = taxonomy
  /\ (forall r : Result, In r all_results)
  /\ (forall r : LegacyResult.Result, In r LegacyResult.all_results)
  /\ (forall r : opaque_result_t, In r all_opaque_results)
  /\ (forall r : Result,
        opaque_result_code (to_opaque_result_t r) = Result_code r
        /\ LegacyResult.Result_code (to_legacy_result r) = Result_code r)
  /\ (forall (A : Type) (o : outcome A), In (status_code o) taxonomy)
  /\ map (fun r => status_code (@Err unit r)) all_results = taxonomy
  /\ NoDup taxonomy.
Proof.
  repeat split; try reflexivity.
  - intros r; destruct r; simpl; tauto.
  - intros r; destruct r; simpl; tauto.
  - intros r; destruct r; simpl; tauto.
  - now destruct r.
  - now destruct r.
  - intros A [a|r]; [|destruct r]; simpl; tauto.
  - unfold taxonomy. repeat constructor; simpl; intuition discriminate.
Qed.

(* ------------------------------------------------------------------ *)
(** ** One envelope layout per build *)

(** C7.  The envelope size is one constant per build, 176 in the canonical
    header (and in the C header next to it), 144 in the legacy header.
    Each build's derived sizes (credential response, KE2) are the ones
    composed from its own envelope length, so each build is consistent
    with exactly one of the two layouts, and no choice of constants is
    consistent with both. *)
Theorem envelope_single_layout :
  ENVELOPE_LENGTH canonical = canonical_envelope
  /\ canonical_envelope = 176%N /\ legacy_envelope = 144%N
  /\ consistent_with canonical canonical_envelope = true
  /\ consistent_with canonical legacy_envelope = false
  /\ consistent_with CApi.as_header canonical_envelope = true
  /\ consistent_with CApi.as_header legacy_envelope = false
  /\ consistent_with legacy legacy_envelope = true
  /\ consistent_with legacy canonical_envelope = false
  /\ (forall h : opaque_h,
        consistent_with h legacy_envelope
        && consistent_with h canonical_envelope = false).
Proof.
  repeat split; try reflexivity.
  intros h. unfold consistent_with.
  destruct (ENVELOPE_LENGTH h =? legacy_envelope)%N eqn:E1; [|reflexivity].
  apply N.eqb_eq in E1.
  destruct (ENVELOPE_LENGTH h =? canonical_envelope)%N eqn:E2.
  - apply N.eqb_eq in E2. rewrite E1 in E2. discriminate.
  - simpl. apply andb_false_r.
Qed.

(* ------------------------------------------------------------------ *)
(** ** The nonce of the envelope cipher *)

(** C9.  The nonce length of the canonical header, 32, is at least the 24
    bytes the secret-box cipher requires: the [static_assert] holds.
    Sealing draws a nonce of [NONCE_LENGTH] bytes, so it never hands the
    cipher a shorter nonce: a cipher that refuses undersized nonces seals
    exactly as the plain one. *)
Theorem nonce_fits_secretbox (B : Backend) (HB : Lawful B)
        (randomized_pwd responder_pk isk ipk master_key : bytes) (g : RNG B) :
  static_assert_nonce canonical = true
  /\ (crypto_secretbox_NONCEBYTES <= NONCE_LENGTH canonical)%N
  /\ Len.NONCE = N.to_nat (NONCE_LENGTH canonical)
  /\ envelope.seal (with_nonce_check B) randomized_pwd responder_pk isk ipk
                   master_key g
     = envelope.seal B randomized_pwd responder_pk isk ipk master_key g.
Proof.
  split; [reflexivity|]. split; [discriminate|]. split; [reflexivity|].
  unfold envelope.seal, bind.
  cbn [with_nonce_check random_bytes RNG].
  destruct (random_bytes B Len.NONCE g) as [[nonce|r] g'] eqn:E; [|reflexivity].
  apply (random_bytes_length B HB) in E.
  unfold lift, envelope.envelope_key, envelope.outer_mac_key, envelope.outer_tag.
  cbn [with_nonce_check key_derivation_expand encrypt_envelope hmac RNG].
  rewrite E. reflexivity.
Qed.

Lemma nonce_fits_secretbox_witness :
  envelope.seal (with_nonce_check Toy.backend) (Toy.tape 0 64) (Toy.tape 1 32)
                (Toy.tape 2 32) (Toy.tape 3 32) Toy.master Toy.client_tape
  = envelope.seal Toy.backend (Toy.tape 0 64) (Toy.tape 1 32) (Toy.tape 2 32)
                  (Toy.tape 3 32) Toy.master Toy.client_tape.
Proof.
  apply (nonce_fits_secretbox Toy.backend toy_lawful).
Defined.

(* ------------------------------------------------------------------ *)
(** ** Copy and move operations *)

(** C10, as amended.  [OpaqueClient], [OpaqueResponder], [OpaqueServer]
    and [SecureBuffer] delete their copy constructor and their copy
    assignment, so none of them can be copied, and [SecureBuffer] declares
    both move operations: it is moved, never copied.  The session state
    structures ([ClientState], [ResponderState], [ServerState]) delete
    nothing and hold [secure_bytes] members only: they can be copied. *)
Theorem role_objects_not_copyable :
  Forall (fun c => Cxx.copy_deleted c = true
                   /\ Cxx.copy_constructible c = false
                   /\ Cxx.copy_assignable c = false)
         Cxx.role_and_buffer_classes
  /\ Cxx.move_declared Cxx.SecureBuffer = true
  /\ Forall (fun c => Cxx.copy_deleted c = false
                      /\ Cxx.copy_constructible c = true
                      /\ Cxx.copy_assignable c = true)
            Cxx.session_state_classes.
Proof.
  split; [|split; [reflexivity|]]; repeat constructor.
Qed.

(** C10 as stated fails: were every session state owned linearly because
    copies are deleted, no session state class could be copied; the state
    of the initiator's session can. *)
Lemma session_state_is_copyable :
  In Cxx.ClientState Cxx.session_state_classes
  /\ Cxx.copy_deleted Cxx.ClientState = false
  /\ ~ Forall (fun c => Cxx.copy_constructible c = false)
              (Cxx.role_and_buffer_classes ++ Cxx.session_state_classes).
Proof.
  split; [now left|]. split; [reflexivity|].
  intros H. rewrite Forall_forall in H.
  specialize (H Cxx.ClientState). simpl in H.
  assert (true = false) by (apply H; tauto). discriminate.
Qed.

(* ------------------------------------------------------------------ *)
(** ** Reading the runs of the role functions *)

(** Case analysis on the innermost scrutinee of a hypothesis about a run,
    discarding the branches that contradict it. *)
Ltac run_step H :=
  cbv beta iota in H;
  match type of H with
  | context [match ?x with _ => _ end] =>
      lazymatch x with
      | context [match _ with _ => _ end] => fail
      | _ => destruct x eqn:? in H; try discriminate H;
             try (is_var x; subst x)
      end
  end.

Ltac run_inv H := repeat run_step H.

Ltac lens :=
  unfold slice in *;
  repeat (rewrite ?length_app, ?length_firstn, ?length_skipn in * );
  unfold Len.PRIVATE_KEY, Len.PUBLIC_KEY, Len.MASTER_KEY, Len.NONCE, Len.MAC,
    Len.HASH, Len.ENVELOPE, Len.REGISTRATION_REQUEST,
    Len.REGISTRATION_RESPONSE, Len.CREDENTIAL_RESPONSE, Len.KE1, Len.KE2,
    Len.KE3, Len.ENVELOPE_CIPHERTEXT, Len.ENVELOPE_TAG, Len.INNER_TAG,
    Len.OUTER_TAG, Len.SESSION_KEY in *;
  lia.

Lemma Ok_inj (A : Type) (a b : A) : Ok a = Ok b -> a = b.
Proof. congruence. Qed.

Lemma session_call_inv (B : Backend) (A : Type) (accepted : bool)
      (body : M (RNG B) (A * InitiatorState.t)) (st st' : InitiatorState.t)
      (g g' : RNG B) (a : A) :
  session_call B accepted body st g = (Ok a, st', g') ->
  accepted = true /\ body g = (Ok (a, st'), g').
Proof.
  unfold session_call. intros H. run_inv H.
  injection H as <- <- <-. now split.
Qed.

(* ------------------------------------------------------------------ *)
(** ** The initiator's finish *)

Lemma Phase_eqb_eq (a b : Phase) : Phase_eqb a b = true -> a = b.
Proof. destruct a, b; simpl; congruence. Qed.

Lemma key_schedule_length (B : Backend) (HB : Lawful B)
      (T dh1 dh2 dh3 hs sk : bytes) :
  key_schedule B T dh1 dh2 dh3 = Ok (hs, sk) ->
  length hs = 64%nat /\ length sk = Len.SESSION_KEY.
Proof.
  unfold key_schedule, obind. intros H. run_inv H.
  injection H as <- <-.
  split; eapply (key_derivation_expand_length B HB); eassumption.
Qed.

Lemma open_master_key_length (B : Backend) (HB : Lawful B) (e : Envelope.t)
      (rpwd known : bytes) (o : envelope.opened) :
  envelope.open B e rpwd known = Ok o ->
  length (envelope.master_key o)
  = (length (Envelope.ciphertext e) - (Len.PRIVATE_KEY + Len.PUBLIC_KEY))%nat.
Proof.
  unfold envelope.open, obind. intros H. run_inv H.
  apply Ok_inj in H. subst o. cbn [envelope.master_key].
  rewrite length_skipn.
  match goal with
  | Hd : decrypt_envelope _ _ _ _ _ = Ok _ |- _ =>
      now rewrite (decrypt_envelope_length B HB _ _ _ _ _ Hd)
  end.
Qed.

Lemma generate_ke3_inv (B : Backend) (client : OpaqueClient.t)
      (ke2 : bytes) (st st' : InitiatorState.t) (g g' : RNG B) (ke3 : KE3.t) :
  generate_ke3 B client ke2 st g = (Ok ke3, st', g') ->
  length ke2 = Len.KE2 /\ InitiatorState.phase st = AWAIT_KE2
  /\ generate_ke3_body B client ke2 st = Ok (ke3, st') /\ g' = g.
Proof.
  unfold generate_ke3. intros H.
  apply session_call_inv in H as [Hacc Hbody].
  apply andb_prop in Hacc as [Hlen Hph].
  apply Nat.eqb_eq in Hlen. apply Phase_eqb_eq in Hph.
  unfold lift in Hbody. injection Hbody as Hbody Hg.
  repeat split; assumption || now symmetry.
Qed.

Lemma generate_ke3_body_stores (B : Backend) (HB : Lawful B)
      (client : OpaqueClient.t) (ke2 : bytes) (st st' : InitiatorState.t)
      (ke3 : KE3.t) :
  length ke2 = Len.KE2 ->
  generate_ke3_body B client ke2 st = Ok (ke3, st') ->
  InitiatorState.phase st' = AWAIT_FINISH
  /\ length (InitiatorState.session_key st') = Len.SESSION_KEY
  /\ length (InitiatorState.master_key st') = Len.MASTER_KEY.
Proof.
  intros Hlen H. unfold generate_ke3_body, obind in H. run_inv H.
  injection H as _ <-.
  cbn [InitiatorState.phase InitiatorState.session_key InitiatorState.master_key].
  split; [reflexivity|]. split.
  - eapply key_schedule_length; eassumption.
  - match goal with
    | Ho : envelope.open _ _ _ _ = Ok _ |- _ =>
        rewrite (open_master_key_length B HB _ _ _ _ Ho)
    end.
    unfold Envelope.parse, CredentialResponse.parse, KE2.parse;
      cbn [Envelope.ciphertext CredentialResponse.envelope
           KE2.credential_response].
    lens.
Qed.

(** C2.  After a successful [generate_ke3], the initiator's finish returns
    the session key (64 bytes) and the master key (32 bytes) the state
    stores.  The state it leaves is [DONE_AUTH] and zeroized: every buffer
    has the size it had and holds zeros only, the session key 64 of them
    and the master key 32.  A second finish on it is refused. *)
Theorem finish_returns_stored_keys (B : Backend) (HB : Lawful B)
        (client : OpaqueClient.t) (ke2 : bytes) (st st' : InitiatorState.t)
        (g g' : RNG B) (ke3 : KE3.t)
        (Hke3 : generate_ke3 B client ke2 st g = (Ok ke3, st', g')) :
  let st'' :=
    {| InitiatorState.password :=
         repeat x00 (length (InitiatorState.password st'));
       InitiatorState.client_private_key :=
         repeat x00 (length (InitiatorState.client_private_key st'));
       InitiatorState.client_public_key :=
         repeat x00 (length (InitiatorState.client_public_key st'));
       InitiatorState.client_ephemeral_private_key :=
         repeat x00 (length (InitiatorState.client_ephemeral_private_key st'));
       InitiatorState.client_ephemeral_public_key :=
         repeat x00 (length (InitiatorState.client_ephemeral_public_key st'));
       InitiatorState.server_public_key :=
         repeat x00 (length (InitiatorState.server_public_key st'));
       InitiatorState.session_key := repeat x00 64;
       InitiatorState.oprf_blind_scalar :=
         repeat x00 (length (InitiatorState.oprf_blind_scalar st'));
       InitiatorState.client_nonce :=
         repeat x00 (length (InitiatorState.client_nonce st'));
       InitiatorState.master_key := repeat x00 32;
       InitiatorState.phase := DONE_AUTH |} in
  client_finish B client st' g'
  = (Ok (InitiatorState.session_key st', InitiatorState.master_key st'),
     st'', g')
  /\ length (InitiatorState.session_key st') = 64%nat
  /\ length (InitiatorState.master_key st') = 32%nat
  /\ client_finish B client st'' g' = (Err InvalidInput, st'', g').
Proof.
  apply generate_ke3_inv in Hke3 as (Hlen & _ & Hbody & _).
  destruct (generate_ke3_body_stores B HB client ke2 st st' ke3 Hlen Hbody)
    as (Hph & Hsk & Hmk).
  change Len.SESSION_KEY with 64%nat in Hsk.
  change Len.MASTER_KEY with 32%nat in Hmk.
  intros st''.
  split; [|split; [exact Hsk|split; [exact Hmk|reflexivity]]].
  unfold client_finish, session_call, ret. rewrite Hph. cbn [Phase_eqb].
  cbv beta iota. subst st''.
  unfold InitiatorState.wipe, zeroize. now rewrite Hsk, Hmk.
Qed.

(** Scenario A: the initiator answers the KE2 of the scenario and
    finishes.  The finish returns the master key [00 x 31 || AA] and the
    stored session key, which is not all zeros, and leaves thirteen zero
    bytes for the password and 64 for the session key. *)
Lemma finish_returns_stored_keys_witness :
  exists ke3 st' st'',
    generate_ke3 Toy.backend Toy.client Toy.ke2 Toy.state_after_ke1
                 Toy.tape_after_ke1
    = (Ok ke3, st', Toy.tape_after_ke1)
    /\ client_finish Toy.backend Toy.client st' Toy.tape_after_ke1
       = (Ok (InitiatorState.session_key st', Toy.master), st'',
          Toy.tape_after_ke1)
    /\ InitiatorState.session_key st' <> repeat x00 64
    /\ InitiatorState.session_key st'' = repeat x00 64
    /\ InitiatorState.password st'' = repeat x00 13
    /\ InitiatorState.master_key st'' = repeat x00 32
    /\ InitiatorState.phase st'' = DONE_AUTH.
Proof.
  destruct (generate_ke3 Toy.backend Toy.client Toy.ke2 Toy.state_after_ke1
                         Toy.tape_after_ke1)
    as [[[ke3|r] st'] g'] eqn:E; [|vm_compute in E; discriminate E].
  assert (Hg : g' = Toy.tape_after_ke1)
    by (vm_compute in E; injection E as _ _ <-; reflexivity).
  assert (Hm : InitiatorState.master_key st' = Toy.master)
    by (vm_compute in E; injection E as _ <- _; reflexivity).
  assert (Hp : length (InitiatorState.password st') = 13%nat)
    by (vm_compute in E; injection E as _ <- _; reflexivity).
  assert (Hs : InitiatorState.session_key st' <> repeat x00 64)
    by (vm_compute in E; injection E as _ <- _; vm_compute; discriminate).
  pose proof (finish_returns_stored_keys Toy.backend toy_lawful Toy.client _ _
                _ _ _ _ E) as H.
  cbv zeta in H. destruct H as (Hfin & _ & _ & _).
  rewrite Hp, Hm in Hfin. subst g'.
  eexists ke3, st', _. split; [reflexivity|].
  split; [exact Hfin|]. repeat split. exact Hs.
Defined.

(* ================================================================== *)
(** * Further properties of the headers *)

(* ------------------------------------------------------------------ *)
(** ** The constants across the headers *)

(** X1.  The C header and the canonical C++ header of the package agree:
    each of the fourteen [OPAQUE_*] macros has the value of the C++
    constant of the same name. *)
Theorem c_macros_match_canonical :
  CApi.as_header = canonical
  /\ Some CApi.OPAQUE_MASTER_KEY_LENGTH = MASTER_KEY_LENGTH canonical
  /\ static_asserts CApi.as_header = true.
Proof. repeat split. Qed.

(** X2.  What the six [static_assert]s of opaque.h force on any choice of
    constants whose sizes do not wrap around [size_t]: 32-byte keys, a
    64-byte MAC, a nonce of at least 24 bytes, a credential response 32
    bytes longer than the envelope and a KE2 longer than envelope plus
    nonce by 128 bytes.  They force nothing else: whatever the envelope
    length, the nonce length from 24 up and the eight other constants
    are, the header with these values, 32-byte keys, a 64-byte MAC and
    the two composed sizes passes all six asserts. *)
Theorem static_asserts_pin_layout (h : opaque_h)
        (Hok : static_asserts h = true)
        (Hfit : (NONCE_LENGTH h + ENVELOPE_LENGTH h + 128 < SizeT.modulus)%N) :
  (PRIVATE_KEY_LENGTH h = 32 /\ PUBLIC_KEY_LENGTH h = 32 /\ MAC_LENGTH h = 64
   /\ 24 <= NONCE_LENGTH h
   /\ CREDENTIAL_RESPONSE_LENGTH h = ENVELOPE_LENGTH h + 32
   /\ KE2_LENGTH h = NONCE_LENGTH h + ENVELOPE_LENGTH h + 128)%N
  /\ (forall (envelope nonce seed hash request response credential_request
              ke1 ke3 : N) (master : option N),
        (24 <= nonce)%N ->
        (nonce + envelope + 128 < SizeT.modulus)%N ->
        static_asserts
          {| OPRF_SEED_LENGTH := seed;
             PRIVATE_KEY_LENGTH := 32;
             PUBLIC_KEY_LENGTH := 32;
             MASTER_KEY_LENGTH := master;
             NONCE_LENGTH := nonce;
             MAC_LENGTH := 64;
             HASH_LENGTH := hash;
             ENVELOPE_LENGTH := envelope;
             REGISTRATION_REQUEST_LENGTH := request;
             REGISTRATION_RESPONSE_LENGTH := response;
             CREDENTIAL_REQUEST_LENGTH := credential_request;
             CREDENTIAL_RESPONSE_LENGTH := envelope + 32;
             KE1_LENGTH := ke1;
             KE2_LENGTH := nonce + envelope + 128;
             KE3_LENGTH := ke3 |} = true).
Proof.
  split.
  - unfold static_asserts in Hok.
    repeat (apply andb_prop in Hok as [Hok ?]).
    unfold static_assert_key_lengths in Hok.
    unfold static_assert_private_key, static_assert_nonce, static_assert_mac,
      static_assert_credential_response, static_assert_ke2 in *.
    repeat match goal with
           | H : (_ =? _)%N = true |- _ => apply N.eqb_eq in H
           | H : (_ <=? _)%N = true |- _ => apply N.leb_le in H
           end.
    unfold crypto_secretbox_NONCEBYTES in *.
    unfold SizeT.add in *.
    change SizeT.modulus with 18446744073709551616%N in *.
    assert (Hpriv : PRIVATE_KEY_LENGTH h = 32%N) by assumption.
    assert (Hpub : PUBLIC_KEY_LENGTH h = 32%N) by congruence.
    assert (Hmac : MAC_LENGTH h = 64%N) by assumption.
    assert (Hcred : CREDENTIAL_RESPONSE_LENGTH h = (ENVELOPE_LENGTH h + 32)%N).
    { match goal with
      | H : CREDENTIAL_RESPONSE_LENGTH h = _ |- _ => rewrite H
      end.
      rewrite Hpub, N.mod_small by lia. lia. }
    repeat (split; [assumption|]).
    match goal with
    | H : KE2_LENGTH h = _ |- _ => rewrite H
    end.
    rewrite Hpub, Hmac, Hcred.
    rewrite (N.mod_small (NONCE_LENGTH h + 32)) by lia.
    rewrite (N.mod_small (NONCE_LENGTH h + 32 + (ENVELOPE_LENGTH h + 32))) by lia.
    rewrite N.mod_small by lia. lia.
  - clear. intros envelope nonce seed hash request response credential_request
             ke1 ke3 master Hn Hsmall.
    change SizeT.modulus with 18446744073709551616%N in Hsmall.
    unfold static_asserts, static_assert_key_lengths, static_assert_private_key,
      static_assert_nonce, static_assert_mac,
      static_assert_credential_response, static_assert_ke2, SizeT.add;
      cbn [PRIVATE_KEY_LENGTH PUBLIC_KEY_LENGTH NONCE_LENGTH MAC_LENGTH
           ENVELOPE_LENGTH CREDENTIAL_RESPONSE_LENGTH KE2_LENGTH].
    change SizeT.modulus with 18446744073709551616%N.
    rewrite (N.mod_small (32 + envelope)) by lia.
    rewrite (N.mod_small (nonce + 32)) by lia.
    rewrite (N.mod_small (nonce + 32 + (envelope + 32))) by lia.
    rewrite N.mod_small by lia.
    apply N.leb_le in Hn. unfold crypto_secretbox_NONCEBYTES. rewrite Hn.
    replace (32 + envelope)%N with (envelope + 32)%N by lia.
    replace (nonce + 32 + (envelope + 32) + 64)%N
      with (nonce + envelope + 128)%N by lia.
    now rewrite !N.eqb_refl.
Qed.

(** Both generations of the header pass the asserts and have the forced
    sizes; so does a header with a one-byte envelope, a 24-byte nonce and
    zero for every other free constant. *)
Lemma static_asserts_pin_layout_witness :
  (KE2_LENGTH canonical
   = NONCE_LENGTH canonical + ENVELOPE_LENGTH canonical + 128)%N
  /\ (KE2_LENGTH legacy = NONCE_LENGTH legacy + ENVELOPE_LENGTH legacy + 128)%N
  /\ static_asserts
       {| OPRF_SEED_LENGTH := 0;
          PRIVATE_KEY_LENGTH := 32;
          PUBLIC_KEY_LENGTH := 32;
          MASTER_KEY_LENGTH := None;
          NONCE_LENGTH := 24;
          MAC_LENGTH := 64;
          HASH_LENGTH := 0;
          ENVELOPE_LENGTH := 1;
          REGISTRATION_REQUEST_LENGTH := 0;
          REGISTRATION_RESPONSE_LENGTH := 0;
          CREDENTIAL_REQUEST_LENGTH := 0;
          CREDENTIAL_RESPONSE_LENGTH := 33;
          KE1_LENGTH := 0;
          KE2_LENGTH := 153;
          KE3_LENGTH := 0 |} = true.
Proof.
  assert (Hc : (NONCE_LENGTH canonical + ENVELOPE_LENGTH canonical + 128
                < SizeT.modulus)%N) by (vm_compute; reflexivity).
  assert (Hl : (NONCE_LENGTH legacy + ENVELOPE_LENGTH legacy + 128
                < SizeT.modulus)%N) by (vm_compute; reflexivity).
  split; [|split].
  - apply (static_asserts_pin_layout canonical eq_refl Hc).
  - apply (static_asserts_pin_layout legacy eq_refl Hl).
  - apply (proj2 (static_asserts_pin_layout canonical eq_refl Hc)
             1%N 24%N 0%N 0%N 0%N 0%N 0%N 0%N 0%N None);
      [vm_compute; discriminate | vm_compute; reflexivity].
Defined.

(** X3.  The two generations of opaque.h differ in the envelope and in
    nothing else: the eleven constants that do not depend on the envelope
    are equal, the three that do (envelope, credential response, KE2) are
    each 32 bytes larger in the canonical header, and the legacy
    constants pass the [static_assert]s the canonical header carries. *)
Theorem generations_differ_in_envelope_only :
  OPRF_SEED_LENGTH canonical = OPRF_SEED_LENGTH legacy
  /\ PRIVATE_KEY_LENGTH canonical = PRIVATE_KEY_LENGTH legacy
  /\ PUBLIC_KEY_LENGTH canonical = PUBLIC_KEY_LENGTH legacy
  /\ NONCE_LENGTH canonical = NONCE_LENGTH legacy
  /\ MAC_LENGTH canonical = MAC_LENGTH legacy
  /\ HASH_LENGTH canonical = HASH_LENGTH legacy
  /\ REGISTRATION_REQUEST_LENGTH canonical = REGISTRATION_REQUEST_LENGTH legacy
  /\ REGISTRATION_RESPONSE_LENGTH canonical = REGISTRATION_RESPONSE_LENGTH legacy
  /\ CREDENTIAL_REQUEST_LENGTH canonical = CREDENTIAL_REQUEST_LENGTH legacy
  /\ KE1_LENGTH canonical = KE1_LENGTH legacy
  /\ KE3_LENGTH canonical = KE3_LENGTH legacy
  /\ (ENVELOPE_LENGTH canonical = ENVELOPE_LENGTH legacy + 32)%N
  /\ (CREDENTIAL_RESPONSE_LENGTH canonical
      = CREDENTIAL_RESPONSE_LENGTH legacy + 32)%N
  /\ (KE2_LENGTH canonical = KE2_LENGTH legacy + 32)%N
  /\ static_asserts legacy = true
  /\ static_asserts canonical = true
  /\ MASTER_KEY_LENGTH legacy = None.
Proof. repeat split. Qed.

(** X4.  One [Envelope] structure serves both generations; the size of
    its tag decides which.  With a nonce of [NONCE_LENGTH] bytes and the
    96-byte ciphertext, the envelope has the canonical length exactly
    when its tag has 48 bytes and the legacy length exactly when its tag
    has 16 bytes (the secret-box tag alone, as the legacy header
    comments). *)
Theorem envelope_tag_size_selects_generation (e : Envelope.t)
        (Hn : length (Envelope.nonce e) = N.to_nat (NONCE_LENGTH canonical))
        (Hc : length (Envelope.ciphertext e) = Len.ENVELOPE_CIPHERTEXT) :
  (length (Envelope.wire e) = N.to_nat (ENVELOPE_LENGTH canonical)
   <-> length (Envelope.auth_tag e) = Len.ENVELOPE_TAG)
  /\ (length (Envelope.wire e) = N.to_nat (ENVELOPE_LENGTH legacy)
      <-> length (Envelope.auth_tag e) = Len.INNER_TAG)
  /\ Envelope.parse (Envelope.wire e) = e.
Proof.
  change (N.to_nat (NONCE_LENGTH canonical)) with Len.NONCE in Hn.
  split; [|split].
  - change (N.to_nat (ENVELOPE_LENGTH canonical)) with 176%nat.
    unfold Envelope.wire. rewrite !length_app, Hn, Hc.
    unfold Len.NONCE, Len.ENVELOPE_CIPHERTEXT, Len.ENVELOPE_TAG. lia.
  - change (N.to_nat (ENVELOPE_LENGTH legacy)) with 144%nat.
    unfold Envelope.wire. rewrite !length_app, Hn, Hc.
    unfold Len.NONCE, Len.ENVELOPE_CIPHERTEXT, Len.INNER_TAG. lia.
  - now apply Envelope_parse_wire.
Qed.

Lemma envelope_tag_size_selects_generation_witness :
  let e := {| Envelope.nonce := repeat x01 32;
              Envelope.ciphertext := repeat x02 96;
              Envelope.auth_tag := repeat x03 48 |} in
  length (Envelope.wire e) = N.to_nat (ENVELOPE_LENGTH canonical)
  /\ length (Envelope.wire e) <> N.to_nat (ENVELOPE_LENGTH legacy).
Proof.
  intros e.
  destruct (envelope_tag_size_selects_generation e eq_refl eq_refl)
    as (Hcan & Hleg & _).
  split.
  - apply Hcan. reflexivity.
  - intros H. apply Hleg in H. vm_compute in H. discriminate H.
Defined.

(** X5.  In KE1 the credential request is the 32-byte blinded element:
    with a nonce of [NONCE_LENGTH] bytes and a public key of
    [PUBLIC_KEY_LENGTH] bytes, the three fields of [struct KE1] add up to
    [KE1_LENGTH] exactly when the credential request has
    [REGISTRATION_REQUEST_LENGTH] bytes.  [CREDENTIAL_REQUEST_LENGTH], 96,
    is the length of the whole KE1, not of that field. *)
Theorem KE1_credential_request_size (k : KE1.t)
        (Hn : length (KE1.client_nonce k) = N.to_nat (NONCE_LENGTH canonical))
        (Hp : length (KE1.client_public_key k)
              = N.to_nat (PUBLIC_KEY_LENGTH canonical)) :
  (length (KE1.wire k) = N.to_nat (KE1_LENGTH canonical)
   <-> length (KE1.credential_request k)
       = N.to_nat (REGISTRATION_REQUEST_LENGTH canonical))
  /\ CREDENTIAL_REQUEST_LENGTH canonical = KE1_LENGTH canonical
  /\ (length (KE1.credential_request k)
      <> N.to_nat (CREDENTIAL_REQUEST_LENGTH canonical)
      \/ length (KE1.wire k) <> N.to_nat (KE1_LENGTH canonical)).
Proof.
  change (N.to_nat (NONCE_LENGTH canonical)) with 32%nat in Hn.
  change (N.to_nat (PUBLIC_KEY_LENGTH canonical)) with 32%nat in Hp.
  change (N.to_nat (KE1_LENGTH canonical)) with 96%nat.
  change (N.to_nat (REGISTRATION_REQUEST_LENGTH canonical)) with 32%nat.
  change (N.to_nat (CREDENTIAL_REQUEST_LENGTH canonical)) with 96%nat.
  unfold KE1.wire. rewrite !length_app, Hn, Hp.
  split; [lia|]. split; [reflexivity|]. lia.
Qed.

Lemma KE1_credential_request_size_witness :
  let k := {| KE1.client_nonce := repeat x01 32;
              KE1.client_public_key := repeat x02 32;
              KE1.credential_request := repeat x03 32 |} in
  length (KE1.wire k) = N.to_nat (KE1_LENGTH canonical)
  /\ KE1.parse (KE1.wire k) = k.
Proof.
  intros k.
  destruct (KE1_credential_request_size k eq_refl eq_refl) as (H & _).
  split; [apply H; reflexivity|].
  apply KE1_parse_wire; reflexivity.
Defined.

(** X6.  A KE2 buffer and the [KE2] structure carry the same information:
    splitting a buffer at offsets 32, 64 and 272 loses no byte, whatever
    its length; a buffer of [KE2_LENGTH] bytes splits into fields of the
    declared sizes; and fields of the declared sizes are recovered from
    their concatenation. *)
Theorem KE2_round_trip (k : KE2.t) (b : bytes)
        (Hk : KE2.well_sized k)
        (Hb : length b = N.to_nat (KE2_LENGTH canonical)) :
  KE2.parse (KE2.wire k) = k
  /\ KE2.wire (KE2.parse b) = b
  /\ KE2.well_sized (KE2.parse b)
  /\ (forall b' : bytes, KE2.wire (KE2.parse b') = b').
Proof.
  assert (Hany : forall b' : bytes, KE2.wire (KE2.parse b') = b').
  { intros b'. unfold KE2.wire, KE2.parse, slice;
      cbn [KE2.responder_nonce KE2.responder_public_key
           KE2.credential_response KE2.responder_mac skipn].
    rewrite !skipn_add.
    rewrite (firstn_skipn Len.CREDENTIAL_RESPONSE).
    rewrite (firstn_skipn Len.PUBLIC_KEY).
    apply firstn_skipn. }
  destruct Hk as (Hn & Hp & Hc & _).
  split; [now apply KE2_parse_wire|]. split; [apply Hany|].
  split; [|exact Hany].
  change (N.to_nat (KE2_LENGTH canonical)) with 336%nat in Hb.
  unfold KE2.well_sized, KE2.parse;
    cbn [KE2.responder_nonce KE2.responder_public_key
         KE2.credential_response KE2.responder_mac].
  change (N.to_nat (NONCE_LENGTH canonical)) with 32%nat.
  change (N.to_nat (PUBLIC_KEY_LENGTH canonical)) with 32%nat.
  change (N.to_nat (CREDENTIAL_RESPONSE_LENGTH canonical)) with 208%nat.
  change (N.to_nat (MAC_LENGTH canonical)) with 64%nat.
  unfold slice. rewrite !length_firstn, !length_skipn, Hb.
  unfold Len.NONCE, Len.PUBLIC_KEY, Len.CREDENTIAL_RESPONSE. lia.
Qed.

Lemma KE2_round_trip_witness :
  let k := {| KE2.responder_nonce := repeat x03 32;
              KE2.responder_public_key := repeat x04 32;
              KE2.credential_response := repeat x05 208;
              KE2.responder_mac := repeat x06 64 |} in
  KE2.parse (KE2.wire k) = k
  /\ KE2.wire (KE2.parse (repeat x07 336)) = repeat x07 336.
Proof.
  intros k.
  assert (Hk : KE2.well_sized k) by (repeat split; reflexivity).
  destruct (KE2_round_trip k (repeat x07 336) Hk eq_refl) as (H1 & H2 & _).
  split; assumption.
Defined.

(* ------------------------------------------------------------------ *)
(** ** The status codes *)

(** X7.  The integer status identifies the result: two results with the
    same code are the same result, no code is positive, the code is 0 for
    [Success] only, and the C enumerator of the same name has the same
    code. *)
Theorem status_identifies_result (r1 r2 : Result)
        (H : Result_code r1 = Result_code r2) :
  r1 = r2
  /\ (Result_code r1 <= 0)%Z
  /\ (Result_code r1 =? 0)%Z
     = match r1 with
       | Success => true
       | _ => false
       end
  /\ opaque_result_code (to_opaque_result_t r1) = Result_code r2
  /\ LegacyResult.Result_code (to_legacy_result r1) = Result_code r2.
Proof.
  assert (r1 = r2) by (destruct r1, r2; simpl in H; congruence).
  subst r2. repeat split; destruct r1; simpl; congruence || lia.
Qed.

Lemma status_identifies_result_witness :
  (Result_code AuthenticationError =? 0)%Z = false
  /\ opaque_result_code (to_opaque_result_t AuthenticationError) = (-5)%Z.
Proof.
  destruct (status_identifies_result AuthenticationError AuthenticationError
              eq_refl) as (_ & _ & H0 & Hc & _).
  split; assumption.
Defined.

(* ------------------------------------------------------------------ *)
(** ** Moving the classes *)

(** A class that declares a destructor and no move constructor has no
    move constructor at all: initialising from an rvalue is a copy. *)
Lemma destructor_turns_move_into_copy (c : Cxx.class_decl) :
  Cxx.is_declared (Cxx.destructor c) = true ->
  Cxx.move_constructor c = Cxx.not_declared ->
  CxxMove.implicit_move_constructor c = false
  /\ CxxMove.move_constructible c = Cxx.copy_constructible c
  /\ CxxMove.moves_by_copy c = Cxx.copy_constructible c.
Proof.
  intros Hd Hm.
  assert (Hi : CxxMove.implicit_move_constructor c = false).
  { unfold CxxMove.implicit_move_constructor. rewrite Hd.
    now rewrite !orb_true_r. }
  unfold CxxMove.move_constructible, CxxMove.moves_by_copy.
  rewrite Hm, Hi. auto.
Qed.

(** X8.  How the classes of the headers move.  The role classes
    ([OpaqueClient], [OpaqueResponder], [OpaqueServer]) can be neither
    copied nor moved: deleting the copy operations and declaring a
    destructor leaves them without a move constructor.  [SecureBuffer]
    moves and does not copy.  The structures with a destructor (session
    states, key pairs) have no move constructor either, so moving one
    copies its buffers.  The message structures, which declare
    constructors only, move by the implicit move constructor. *)
Theorem moving_the_classes :
  Forall (fun c => CxxMove.move_constructible c = false
                   /\ Cxx.copy_constructible c = false)
         CxxMove.role_classes
  /\ CxxMove.move_constructible Cxx.SecureBuffer = true
  /\ Cxx.copy_constructible Cxx.SecureBuffer = false
  /\ Forall (fun c => CxxMove.implicit_move_constructor c = false
                      /\ CxxMove.moves_by_copy c = true)
            CxxMove.wiped_structs
  /\ Forall (fun c => CxxMove.implicit_move_constructor c = true
                      /\ CxxMove.move_constructible c = true
                      /\ CxxMove.moves_by_copy c = false)
            CxxMove.message_structs.
Proof.
  split; [repeat constructor|]. split; [reflexivity|]. split; [reflexivity|].
  split.
  - apply Forall_forall. intros c Hc.
    assert (Hd : Cxx.is_declared (Cxx.destructor c) = true
                 /\ Cxx.move_constructor c = Cxx.not_declared
                 /\ Cxx.copy_constructible c = true).
    { unfold CxxMove.wiped_structs, Cxx.session_state_classes in Hc.
      simpl in Hc.
      repeat (destruct Hc as [<-|Hc]; [repeat split|]). contradiction. }
    destruct Hd as (Hd & Hm & Hcopy).
    destruct (destructor_turns_move_into_copy c Hd Hm) as (Hi & _ & Hby).
    split; [exact Hi | now rewrite Hby].
  - repeat constructor.
Qed.

(* ------------------------------------------------------------------ *)
(** ** The allocator *)

(** X9.  The allocator is stateless: any two allocators compare equal,
    whatever their value types, [operator!=] is the negation of
    [operator==], and equality is symmetric and transitive across value
    types, so storage obtained from one allocator may be released through
    any other. *)
Theorem allocators_always_equal (T U V : Type)
        (a : SecureAllocator.t T) (b : SecureAllocator.t U)
        (c : SecureAllocator.t V) :
  SecureAllocator.eq a b = true
  /\ SecureAllocator.neq a b = negb (SecureAllocator.eq a b)
  /\ SecureAllocator.eq a b = SecureAllocator.eq b a
  /\ SecureAllocator.eq a c = SecureAllocator.eq a b && SecureAllocator.eq b c.
Proof. repeat split. Qed.

(* ------------------------------------------------------------------ *)
(** ** The C API across the generations *)

Lemma types_eqb_eq (a b : list CDecl.c_type) :
  CDecl.types_eqb a b = true -> a = b.
Proof.
  revert b. induction a as [|x a IH]; intros [|y b]; simpl;
    try discriminate; [reflexivity|].
  intros H. apply andb_prop in H as [Hx Hab].
  apply IH in Hab. subst b.
  destruct x, y; simpl in Hx; congruence.
Qed.

(** Declarations with the same signature take the same arguments. *)
Lemma same_signature_params (f g : CDecl.c_function) :
  CDecl.same_signature f g = true ->
  CDecl.param_types f = CDecl.param_types g.
Proof.
  unfold CDecl.same_signature. intros H.
  apply andb_prop in H as [_ H]. now apply types_eqb_eq.
Qed.

(** X10.  The two C headers declare the same eleven functions.  Nine have
    the same signature in both.  The canonical
    [opaque_client_finalize_registration] takes the master key and its
    length after the response, before the state handle, and the canonical
    [opaque_client_finish] takes a master key buffer and its length after
    the session key buffer: a caller built against one header cannot call
    these two through the other. *)
Theorem c_api_generations :
  length CDecl.legacy_api = 11%nat
  /\ length CDecl.canonical_api = 11%nat
  /\ NoDup (map CDecl.c_name CDecl.canonical_api)
  /\ forallb (fun f =>
                match CDecl.find_function (CDecl.c_name f) CDecl.canonical_api
                with Some _ => true | None => false end)
             CDecl.legacy_api = true
  /\ CDecl.changed CDecl.legacy_api CDecl.canonical_api
     = ["opaque_client_finalize_registration"; "opaque_client_finish"]%string
  /\ CDecl.changed CDecl.canonical_api CDecl.legacy_api
     = ["opaque_client_finalize_registration"; "opaque_client_finish"]%string
  /\ CDecl.params_of "opaque_client_finalize_registration" CDecl.canonical_api
     = firstn 3 (CDecl.params_of "opaque_client_finalize_registration"
                                 CDecl.legacy_api)
       ++ [CDecl.c_const_uint8_ptr; CDecl.c_size_t]
       ++ skipn 3 (CDecl.params_of "opaque_client_finalize_registration"
                                   CDecl.legacy_api)
  /\ CDecl.params_of "opaque_client_finish" CDecl.canonical_api
     = CDecl.params_of "opaque_client_finish" CDecl.legacy_api
       ++ [CDecl.c_uint8_ptr; CDecl.c_size_t].
Proof.
  split; [reflexivity|]. split; [reflexivity|].
  split.
  { simpl. repeat constructor; simpl; intuition discriminate. }
  repeat split.
Qed.

(* ------------------------------------------------------------------ *)
(** ** The documented buffer sizes *)

(** X11.  The sizes the C header documents are those of its macros: each
    documented size is the macro size of the buffer (208 for the record is
    envelope plus public key), a buffer of exactly the macro size meets
    its requirement and one a byte shorter never does.  A byte more is
    within the documented contract for every length but the three key
    lengths documented as exact; among them are both message inputs,
    the registration response and KE2, documented as "must be >=". *)
Theorem documented_lengths_match_macros :
  Forall (fun d =>
            CDoc.required (CDoc.d_requirement d) = CDoc.d_macros d
            /\ CDoc.meets (CDoc.d_requirement d) (CDoc.d_macros d) = true
            /\ CDoc.meets (CDoc.d_requirement d) (CDoc.d_macros d - 1) = false
            /\ CDoc.meets (CDoc.d_requirement d) (CDoc.d_macros d + 1)
               = negb (CDoc.is_exact (CDoc.d_requirement d)))
         CDoc.documented_lengths
  /\ map CDoc.d_parameter
         (filter (fun d => CDoc.is_exact (CDoc.d_requirement d))
                 CDoc.documented_lengths)
     = ["key_length"; "master_key_length"; "master_key_length"]%string
  /\ map CDoc.d_parameter
         (filter (fun d => negb (CDoc.d_output d)
                           && negb (CDoc.is_exact (CDoc.d_requirement d)))
                 CDoc.documented_lengths)
     = ["response_length"; "ke2_length"]%string.
Proof.
  split; [|split; reflexivity].
  repeat constructor.
Qed.
